(** * class_clients: bank clients read from a text file and three queries

    A shallow embedding of [class_clients.py]: the [Client] class, the
    file reader [read_from_file_into_list] and the queries
    [filter_by_bank], [largest_earnings_per_day] and
    [largest_loss_per_day], together with the part of the Python run time
    they rely on (exceptions, [int / int], float comparison, [str.strip],
    [str.split], [int(str)], text-mode [readlines]).

    Integers are unbounded ([Z]).  A float is a binary64 number
    ([spec_float]); [a / b] on integers is the exact quotient rounded
    once, as CPython computes it.  Text is a list of characters with
    code points below 256.  The file system is a function from file
    names to the outcome of opening and reading the file; what a call
    prints is returned next to its outcome. *)

From Stdlib Require Import ZArith List Bool Ascii String Lia.
From Stdlib Require Import Floats.SpecFloat.
From Stdlib Require Import Permutation.
From Stdlib Require DecimalString DecimalPos DecimalZ.
Import ListNotations.
Open Scope Z_scope.

(** ** Exceptions and results *)

(** The exceptions the program can meet.  [OSError] stands for every
    failure of [open] other than a missing file. *)
Inductive exn : Type :=
| FileNotFoundError
| ValueError
| ZeroDivisionError
| OverflowError
| OSError.

(** A Python expression either yields a value or raises. *)
Inductive result (A : Type) : Type :=
| Ok (a : A)
| Raise (e : exn).

Arguments Ok {A} a.
Arguments Raise {A} e.

Definition bind {A B : Type} (r : result A) (k : A -> result B) : result B :=
  match r with
  | Ok a => k a
  | Raise e => Raise e
  end.

Declare Scope py_scope.
Delimit Scope py_scope with py.
Notation "x <- e ;; k" := (bind e (fun x => k))
  (at level 61, e at next level, right associativity) : py_scope.
Open Scope py_scope.

(** A [for] loop over a list whose body may raise: the state is threaded
    through the iterations and the first exception leaves the loop. *)
Fixpoint for_loop {S A : Type} (body : S -> A -> result S)
    (items : list A) (st : S) : result S :=
  match items with
  | [] => Ok st
  | x :: rest =>
      match body st x with
      | Ok st' => for_loop body rest st'
      | Raise e => Raise e
      end
  end.

(** ** Floats

    Python floats are IEEE 754 binary64 numbers; [spec_float] with
    precision 53 and maximal exponent 1024 is their specification. *)
Module PyFloat.

Definition float : Type := spec_float.

Definition prec : Z := 53.
Definition emax : Z := 1024.

(** [float('-inf')] *)
Definition neg_inf : float := S754_infinity true.

(** An [int] seen as an unrounded binary number, mantissa and exponent 0. *)
Definition of_int (z : Z) : float :=
  match z with
  | Z0 => S754_zero false
  | Zpos p => S754_finite false p 0
  | Zneg p => S754_finite true p 0
  end.

(** [a / b] on two [int]s: the exact quotient rounded once to the
    nearest float, ties to even.  A zero divisor raises
    [ZeroDivisionError]; a quotient that rounds beyond the largest
    float raises [OverflowError]. *)
Definition truediv (a b : Z) : result float :=
  if b =? 0 then Raise ZeroDivisionError
  else
    match SFdiv prec emax (of_int a) (of_int b) with
    | S754_infinity _ => Raise OverflowError
    | q => Ok q
    end.

(** [x < y], [x == y] on floats, and [x > 0] against the [int] zero. *)
Definition lt (x y : float) : bool := SFltb x y.
Definition eq (x y : float) : bool := SFeqb x y.
Definition is_positive (x : float) : bool := SFltb (S754_zero false) x.

(** [-x] *)
Definition neg (x : float) : float := SFopp x.

(** [float(z)] for an [int] [z]. *)
Definition from_int (z : Z) : float := binary_normalize prec emax z 0 false.

(** Zero or a finite nonzero number: neither an infinity nor a NaN. *)
Definition is_finite (x : float) : bool :=
  match x with
  | S754_zero _ | S754_finite _ _ _ => true
  | _ => false
  end.

Definition is_nan (x : float) : bool :=
  match x with
  | S754_nan => true
  | _ => false
  end.

(** A key whose lexicographic order is the order of the floats. *)
Definition key (x : float) : Z * Z * Z :=
  match x with
  | S754_infinity true => (-2, 0, 0)
  | S754_finite true m e => (-1, - e, - Zpos m)
  | S754_zero _ => (0, 0, 0)
  | S754_nan => (0, 0, 0)
  | S754_finite false m e => (1, e, Zpos m)
  | S754_infinity false => (2, 0, 0)
  end.

Definition key_lt (k1 k2 : Z * Z * Z) : Prop :=
  let '(a1, b1, c1) := k1 in
  let '(a2, b2, c2) := k2 in
  a1 < a2 \/ (a1 = a2 /\ (b1 < b2 \/ (b1 = b2 /\ c1 < c2))).

End PyFloat.

(** ** The Client class *)

(** Text: a sequence of characters (code points below 256). *)
Definition str : Type := list ascii.

Definition lit (s : string) : str := list_ascii_of_string s.

Record Client : Type := {
  name : str;
  bank : str;
  account_age : Z;
  starting_amount : Z;
  current_amount : Z
}.

(** [Client.earnings_per_day] *)
Definition earnings_per_day (self : Client) : result PyFloat.float :=
  PyFloat.truediv (current_amount self - starting_amount self) (account_age self).

(** The rate [largest_loss_per_day] computes for each client:
    [(client.starting_amount - client.current_amount) / client.account_age]. *)
Definition loss_per_day (client : Client) : result PyFloat.float :=
  PyFloat.truediv (starting_amount client - current_amount client) (account_age client).

(** ** The search loop of the two extremal queries *)

(** [earliest_time] starts as [float('inf')] and then holds an [int]. *)
Inductive time_bound : Type :=
| Infinity
| Days (age : Z).

(** [client.account_age < earliest_time] *)
Definition age_lt (age : Z) (t : time_bound) : bool :=
  match t with
  | Infinity => true
  | Days d => age <? d
  end.

(** The three local variables of the loop. *)
Record search_state : Type := {
  max_rate : PyFloat.float;
  earliest_time : time_bound;
  best : option Client
}.

Definition search_init : search_state :=
  {| max_rate := PyFloat.neg_inf; earliest_time := Infinity; best := None |}.

(** One iteration.  Both functions have the same body; they differ in
    the rate they compute. *)
Definition search_step (rate : Client -> result PyFloat.float)
    (st : search_state) (client : Client) : result search_state :=
  r <- rate client ;;
  if PyFloat.lt (max_rate st) r
     || (PyFloat.eq r (max_rate st) && age_lt (account_age client) (earliest_time st))
  then Ok {| max_rate := r; earliest_time := Days (account_age client); best := Some client |}
  else Ok st.

(** The loop followed by [return result if max > 0 else None]. *)
Definition search (rate : Client -> result PyFloat.float)
    (clients : list Client) : result (option Client) :=
  st <- for_loop (search_step rate) clients search_init ;;
  Ok (if PyFloat.is_positive (max_rate st) then best st else None).

(** The body of [largest_earnings_per_day] after the file is read. *)
Definition largest_earnings_per_day_clients (clients : list Client)
  : result (option Client) :=
  search earnings_per_day clients.

(** The body of [largest_loss_per_day] after the file is read. *)
Definition largest_loss_per_day_clients (clients : list Client)
  : result (option Client) :=
  search loss_per_day clients.

(** ** Text operations *)
Module PyStr.

Definition LF : ascii := ascii_of_nat 10.
Definition CR : ascii := ascii_of_nat 13.
Definition comma : ascii := ","%char.

Definition code (c : ascii) : N := N_of_ascii c.

Definition in_range (lo hi : N) (c : ascii) : bool :=
  ((lo <=? code c) && (code c <=? hi))%N.

(** [c.isspace()], the characters [str.strip()] removes: tab to
    carriage return, the four separators 28 to 31, the space, NEL and
    the no-break space. *)
Definition isspace (c : ascii) : bool :=
  in_range 9 13 c || in_range 28 31 c || in_range 32 32 c
  || in_range 133 133 c || in_range 160 160 c.

(** The blanks [int()] skips around a literal: as [isspace] without
    the separators 28 to 31. *)
Definition int_space (c : ascii) : bool :=
  in_range 9 13 c || in_range 32 32 c
  || in_range 133 133 c || in_range 160 160 c.

Fixpoint drop_while (p : ascii -> bool) (s : str) : str :=
  match s with
  | [] => []
  | c :: rest => if p c then drop_while p rest else s
  end.

Definition strip_with (p : ascii -> bool) (s : str) : str :=
  rev (drop_while p (rev (drop_while p s))).

(** [s.strip()] *)
Definition strip (s : str) : str := strip_with isspace s.

(** [s.split(sep)] for a one-character separator: never empty. *)
Fixpoint split (sep : ascii) (s : str) : list str :=
  match s with
  | [] => [[]]
  | c :: rest =>
      if Ascii.eqb c sep then [] :: split sep rest
      else
        match split sep rest with
        | field :: fields => (c :: field) :: fields
        | [] => [[c]]
        end
  end.

(** [a == b] on strings. *)
Fixpoint eqb (a b : str) : bool :=
  match a, b with
  | [], [] => true
  | x :: a', y :: b' => Ascii.eqb x y && eqb a' b'
  | _, _ => false
  end.

(** Universal newlines of text mode: ["\r\n"] and a lone ["\r"] are
    read as ["\n"]. *)
Fixpoint translate_newlines (s : str) : str :=
  match s with
  | [] => []
  | c :: rest =>
      if Ascii.eqb c CR then
        match rest with
        | c' :: rest' =>
            if Ascii.eqb c' LF then LF :: translate_newlines rest'
            else LF :: translate_newlines rest
        | [] => [LF]
        end
      else c :: translate_newlines rest
  end.

(** Cut after every ["\n"], keeping it at the end of its line. *)
Fixpoint split_lines (s : str) : list str :=
  match s with
  | [] => []
  | c :: rest =>
      if Ascii.eqb c LF then [LF] :: split_lines rest
      else
        match split_lines rest with
        | line :: lines => (c :: line) :: lines
        | [] => [[c]]
        end
  end.

(** [file.readlines()] on a file opened with [open(filename, 'r')]. *)
Definition readlines (text : str) : list str :=
  split_lines (translate_newlines text).

(** *** [int(s)] *)

Definition digit_value (c : ascii) : option Z :=
  if in_range 48 57 c then Some (Z.of_N (code c) - 48) else None.

Definition underscore : ascii := "_"%char.

(** Digits, with single underscores allowed between two digits.
    Returns the value and the number of digits read. *)
Fixpoint scan_digits (s : str) (prev_underscore : bool) (value digits : Z)
  : option (Z * Z) :=
  match s with
  | [] => if prev_underscore then None else Some (value, digits)
  | c :: rest =>
      if Ascii.eqb c underscore then
        if prev_underscore then None else scan_digits rest true value digits
      else
        match digit_value c with
        | Some d => scan_digits rest false (10 * value + d) (digits + 1)
        | None => None
        end
  end.

Definition int_digits (s : str) : option (Z * Z) :=
  match s with
  | [] => None
  | c :: _ => if Ascii.eqb c underscore then None else scan_digits s false 0 0
  end.

(** [sys.int_info.default_max_str_digits] *)
Definition max_str_digits : Z := 4300.

(** [int(s)]: blanks around, an optional sign, decimal digits.  Every
    other text, and a literal of more than [max_str_digits] digits,
    raises [ValueError]. *)
Definition int_ (s : str) : result Z :=
  let t := strip_with int_space s in
  let '(negative, body) :=
    match t with
    | c :: rest =>
        if Ascii.eqb c "-"%char then (true, rest)
        else if Ascii.eqb c "+"%char then (false, rest)
        else (false, t)
    | [] => (false, t)
    end in
  match int_digits body with
  | Some (value, digits) =>
      if max_str_digits <? digits then Raise ValueError
      else Ok (if negative : bool then - value else value)
  | None => Raise ValueError
  end.

End PyStr.

(** ** Reading the file *)

(** What [open(filename, 'r')] and reading the whole file give: the
    decoded text, [FileNotFoundError] when no such file exists, or
    another error. *)
Definition filesystem : Type := str -> result str.

(** A call returns what it printed, line by line, and its outcome. *)
Definition io (A : Type) : Type := list str * result A.

(** Run [k] on the value of [m]; an exception of [m] propagates. *)
Definition io_bind {A B : Type} (m : io A) (k : A -> result B) : io B :=
  (fst m, bind (snd m) k).

(** [name, bank, account_age, starting_amount, current_amount =
    line.strip().split(',')] and the [Client(...)] built from them.
    Unpacking anything but five fields raises [ValueError]. *)
Definition parse_line (line : str) : result Client :=
  match PyStr.split PyStr.comma (PyStr.strip line) with
  | [name; bank; account_age; starting_amount; current_amount] =>
      age <- PyStr.int_ account_age ;;
      starting <- PyStr.int_ starting_amount ;;
      current <- PyStr.int_ current_amount ;;
      Ok {| name := name; bank := bank; account_age := age;
            starting_amount := starting; current_amount := current |}
  | _ => Raise ValueError
  end.

(** The loop body: [clients.append(Client(...))]. *)
Definition append_client (clients : list Client) (line : str)
  : result (list Client) :=
  client <- parse_line line ;;
  Ok (clients ++ [client]).

Definition not_found_message (filename : str) : str :=
  lit "File " ++ filename ++ lit " not found.".

Definition read_from_file_into_list (fs : filesystem) (filename : str)
  : io (list Client) :=
  match fs filename with
  | Ok text => ([], for_loop append_client (PyStr.readlines text) [])
  | Raise FileNotFoundError => ([not_found_message filename], Ok [])
  | Raise e => ([], Raise e)
  end.

(** ** The three queries *)

(** [[client for client in clients if client.bank == bank]] *)
Definition filter_by_bank_clients (clients : list Client) (bank_name : str)
  : list Client :=
  filter (fun client => PyStr.eqb (bank client) bank_name) clients.

Definition filter_by_bank (fs : filesystem) (filename bank_name : str)
  : io (list Client) :=
  io_bind (read_from_file_into_list fs filename)
    (fun clients => Ok (filter_by_bank_clients clients bank_name)).

Definition largest_earnings_per_day (fs : filesystem) (filename : str)
  : io (option Client) :=
  io_bind (read_from_file_into_list fs filename) largest_earnings_per_day_clients.

Definition largest_loss_per_day (fs : filesystem) (filename : str)
  : io (option Client) :=
  io_bind (read_from_file_into_list fs filename) largest_loss_per_day_clients.

(** ** Notions used to state the properties *)

(** The two modes of the extremal search. *)
Inductive mode : Type := Earn | Loss.

Definition rate_per_day (m : mode) : Client -> result PyFloat.float :=
  match m with
  | Earn => earnings_per_day
  | Loss => loss_per_day
  end.

Definition largest_per_day_clients (m : mode)
  : list Client -> result (option Client) :=
  match m with
  | Earn => largest_earnings_per_day_clients
  | Loss => largest_loss_per_day_clients
  end.

(** Every rate of the sequence is computed without an exception. *)
Definition rates_defined (m : mode) (clients : list Client) : Prop :=
  Forall (fun c => exists r, rate_per_day m c = Ok r) clients.

(** The record [c] at position [i] is preferred to [c'] at position [j]:
    its rate is larger, or the rates are equal and its account is
    younger, or rates and ages are equal and it does not come later. *)
Definition preferred (rate : Client -> result PyFloat.float)
    (i : nat) (c : Client) (j : nat) (c' : Client) : Prop :=
  exists r r',
    rate c = Ok r /\ rate c' = Ok r' /\
    (PyFloat.lt r' r = true \/
     (PyFloat.eq r' r = true /\
      (account_age c < account_age c' \/
       (account_age c = account_age c' /\ (i <= j)%nat)))).

(** [c] stands at position [i] and is preferred to every record. *)
Definition extremal_choice (rate : Client -> result PyFloat.float)
    (clients : list Client) (i : nat) (c : Client) : Prop :=
  nth_error clients i = Some c /\
  forall j c', nth_error clients j = Some c' -> preferred rate i c j c'.

(** The rate of [c] is a float that is not greater than zero. *)
Definition rate_not_positive (m : mode) (c : Client) : Prop :=
  exists r, rate_per_day m c = Ok r /\ PyFloat.is_positive r = false.

(** The record with the two amounts exchanged. *)
Definition swap_amounts (c : Client) : Client :=
  {| name := name c; bank := bank c; account_age := account_age c;
     starting_amount := current_amount c; current_amount := starting_amount c |}.

(** The loop variables with the chosen record's amounts exchanged. *)
Definition swap_state (st : search_state) : search_state :=
  {| max_rate := max_rate st; earliest_time := earliest_time st;
     best := option_map swap_amounts (best st) |}.

(** [res] consists of the elements of [l] that satisfy [P], each kept
    once and in the order of [l]. *)
Inductive selection {A : Type} (P : A -> Prop) : list A -> list A -> Prop :=
| selection_nil : selection P [] []
| selection_skip : forall x res l, ~ P x -> selection P res l -> selection P res (x :: l)
| selection_keep : forall x res l, P x -> selection P res l -> selection P (x :: res) (x :: l).

(** What holds of the loop variables once the records [seen] have been
    visited: nothing is chosen yet, or the variables describe the
    extremal choice among [seen]. *)
Definition search_inv (rate : Client -> result PyFloat.float)
    (seen : list Client) (st : search_state) : Prop :=
  (seen = [] /\ st = search_init) \/
  exists i c r,
    st = {| max_rate := r; earliest_time := Days (account_age c); best := Some c |} /\
    rate c = Ok r /\ extremal_choice rate seen i c.

(** An outcome is a value or [OverflowError]. *)
Definition value_or_overflow {A : Type} (r : result A) : Prop :=
  (exists a, r = Ok a) \/ r = Raise OverflowError.

Definition all_space (s : str) : Prop :=
  Forall (fun c => PyStr.isspace c = true) s.

Definition all_int_space (s : str) : Prop :=
  Forall (fun c => PyStr.int_space c = true) s.

Definition no_comma (s : str) : Prop := ~ In PyStr.comma s.

(** No whitespace at the start, respectively at the end. *)
Definition no_leading_space (s : str) : Prop :=
  PyStr.drop_while PyStr.isspace s = s.

Definition no_trailing_space (s : str) : Prop :=
  PyStr.drop_while PyStr.isspace (rev s) = rev s.

(** The five text fields of a line, separated by commas. *)
Definition join_fields (name bank age starting current : str) : str :=
  name ++ PyStr.comma :: bank ++ PyStr.comma :: age ++ PyStr.comma ::
  starting ++ PyStr.comma :: current.

(** The five fields are free of commas, the first does not start and
    the last does not end with whitespace. *)
Definition clean_fields (name bank age starting current : str) : Prop :=
  no_comma name /\ no_comma bank /\ no_comma age /\ no_comma starting /\
  no_comma current /\ no_leading_space name /\ no_trailing_space current.

(** A well-formed line for the record [client]: the five fields
    [name,bank,account_age,starting_amount,current_amount] followed by
    the end of the line (its terminator, possibly blanks), the numeric
    fields being integer literals with the record's values. *)
Definition well_formed_line (line : str) (client : Client) : Prop :=
  exists age starting current eol,
    line = join_fields (name client) (bank client) age starting current ++ eol /\
    all_space eol /\
    clean_fields (name client) (bank client) age starting current /\
    PyStr.int_ age = Ok (account_age client) /\
    PyStr.int_ starting = Ok (starting_amount client) /\
    PyStr.int_ current = Ok (current_amount client).

Definition not_an_int (field : str) : Prop :=
  forall z, PyStr.int_ field <> Ok z.

(** A line whose comma-split has not exactly five fields, or one of
    whose numeric fields is not an integer literal. *)
Definition malformed (line : str) : Prop :=
  match PyStr.split PyStr.comma (PyStr.strip line) with
  | [_; _; age; starting; current] =>
      not_an_int age \/ not_an_int starting \/ not_an_int current
  | _ => True
  end.

(** ** The scenario of the specification *)

Definition scenario_lines : list string :=
  ["Ann,Sprint,10,1000,1000"; "Mark,Sprint,5,500,600"; "Josh,Chase,2,100,300";
   "Jonah,Chase,100,1000,900"; "Franz,WellsFargo,4,1000,200"]%string.

Definition text_of_lines (lines : list string) : str :=
  List.concat (map (fun l => lit l ++ [PyStr.LF]) lines).

(** A file system with the single file [name] holding [text]. *)
Definition single_file (name text : str) : filesystem :=
  fun filename => if PyStr.eqb filename name then Ok text else Raise FileNotFoundError.

Definition scenario_fs : filesystem :=
  single_file (lit "clients_info.txt") (text_of_lines scenario_lines).

Definition client_of (n b : string) (age starting current : Z) : Client :=
  {| name := lit n; bank := lit b; account_age := age;
     starting_amount := starting; current_amount := current |}.

Definition Ann : Client := client_of "Ann" "Sprint" 10 1000 1000.
Definition Mark : Client := client_of "Mark" "Sprint" 5 500 600.
Definition Josh : Client := client_of "Josh" "Chase" 2 100 300.
Definition Jonah : Client := client_of "Jonah" "Chase" 100 1000 900.
Definition Franz : Client := client_of "Franz" "WellsFargo" 4 1000 200.

(** Three records with the same earning rate, 100 a day: the second
    and the third are the youngest accounts. *)
Definition tie_clients : list Client :=
  [client_of "Ada" "Chase" 4 0 400; client_of "Bob" "Chase" 2 0 200;
   client_of "Cyd" "Sprint" 2 100 300].

(** A record whose earning rate, 2^1024 a day, is beyond every float. *)
Definition huge_gain : Client := client_of "Max" "Chase" 1 0 (2 ^ 1024).

(** A file whose second line is empty. *)
Definition blank_line_text : str :=
  text_of_lines ["Ann,Sprint,10,1000,1000"; ""; "Mark,Sprint,5,500,600"]%string.

(** A file whose line has blanks around every field. *)
Definition padded_text : str :=
  text_of_lines ["  Ann , Sprint , 10 , 1000 , 1000  "]%string.

(** A file one of whose numeric fields is not an integer literal. *)
Definition not_numeric_text : str :=
  text_of_lines ["Ann,Sprint,10,1000,1000"; "Mark,Sprint,five,500,600"]%string.

(** What a client has won in the given mode: the earnings, or the loss. *)
Definition gain (m : mode) (c : Client) : Z :=
  match m with
  | Earn => current_amount c - starting_amount c
  | Loss => starting_amount c - current_amount c
  end.

(** The number of commas of a text. *)
Definition comma_count (s : str) : nat := count_occ ascii_dec s PyStr.comma.

(** Two records with the same three numbers. *)
Definition same_numbers (c c' : Client) : Prop :=
  account_age c' = account_age c /\
  starting_amount c' = starting_amount c /\
  current_amount c' = current_amount c.

(** The loop variables with [f] applied to the chosen record. *)
Definition map_best (f : Client -> Client) (st : search_state) : search_state :=
  {| max_rate := max_rate st; earliest_time := earliest_time st;
     best := option_map f (best st) |}.

(** The record [c] without its texts. *)
Definition anonymous (c : Client) : Client :=
  {| name := []; bank := []; account_age := account_age c;
     starting_amount := starting_amount c; current_amount := current_amount c |}.

(** ** The script

    What the file does when it is run: four calls on
    ["clients_info.txt"], each result printed. *)

(** [Client.__repr__] *)
Definition repr (self : Client) : str := name self.

(** [sep.join(items)] *)
Fixpoint join (sep : str) (items : list str) : str :=
  match items with
  | [] => []
  | item :: rest =>
      match rest with
      | [] => item
      | _ :: _ => item ++ sep ++ join sep rest
      end
  end.

(** [str(clients)] for a list: the [repr] of its elements, separated by
    a comma and a space, between brackets. *)
Definition str_list (clients : list Client) : str :=
  lit "[" ++ join (lit ", ") (map repr clients) ++ lit "]".

(** [str(x)] for the result of an extremal query: [str] of a [Client]
    is its [repr]. *)
Definition str_optional (x : option Client) : str :=
  match x with
  | Some client => repr client
  | None => lit "None"
  end.

(** [print(x)], given [str(x)]. *)
Definition print (line : str) : io unit := ([line], Ok tt).

(** One statement after another: what both print, in order; an
    exception of the first ends the run. *)
Definition io_seq {A B : Type} (m : io A) (k : A -> io B) : io B :=
  match snd m with
  | Ok a => (fst m ++ fst (k a), snd (k a))
  | Raise e => (fst m, Raise e)
  end.

(** The body of [if __name__ == '__main__':]. *)
Definition main (fs : filesystem) : io unit :=
  io_seq (read_from_file_into_list fs (lit "clients_info.txt")) (fun clients =>
  io_seq (print (str_list clients)) (fun _ =>
  io_seq (filter_by_bank fs (lit "clients_info.txt") (lit "Sprint")) (fun clients =>
  io_seq (print (str_list clients)) (fun _ =>
  io_seq (largest_earnings_per_day fs (lit "clients_info.txt")) (fun client =>
  io_seq (print (str_optional client)) (fun _ =>
  io_seq (largest_loss_per_day fs (lit "clients_info.txt")) (fun client =>
  print (str_optional client)))))))).

(** ** Files written in the format the reader expects *)

(** The decimal numeral of an integer, as [str(z)] writes it. *)
Definition str_int (z : Z) : str :=
  lit (DecimalString.NilEmpty.string_of_int (Z.to_int z)).

(** The characters of a sequence of decimal digits. *)
Definition uint_chars (d : Decimal.uint) : str :=
  lit (DecimalString.NilEmpty.string_of_uint d).

(** A digit or the minus sign. *)
Definition numeral_char (c : ascii) : bool :=
  PyStr.in_range 48 57 c || Ascii.eqb c "-"%char.

(** The number of digits of the numeral. *)
Definition digits_of (z : Z) : Z :=
  Z.of_nat (List.length (str_int (Z.abs z))).

Definition no_line_break (s : str) : Prop :=
  ~ In PyStr.LF s /\ ~ In PyStr.CR s.

(** The two texts of a record hold no comma and no line break, and the
    name does not start with whitespace. *)
Definition clean_texts (c : Client) : Prop :=
  no_comma (name c) /\ no_comma (bank c) /\
  no_line_break (name c) /\ no_line_break (bank c) /\
  no_leading_space (name c).

(** A record that a line of the file can hold: no comma and no line
    break in the two texts, no whitespace at the start of the name, and
    numbers that [int] accepts. *)
Definition storable (c : Client) : Prop :=
  no_comma (name c) /\ no_comma (bank c) /\
  no_line_break (name c) /\ no_line_break (bank c) /\
  no_leading_space (name c) /\
  digits_of (account_age c) <= PyStr.max_str_digits /\
  digits_of (starting_amount c) <= PyStr.max_str_digits /\
  digits_of (current_amount c) <= PyStr.max_str_digits.

(** The line of a record, with its terminator. *)
Definition render_line (eol : str) (c : Client) : str :=
  join_fields (name c) (bank c) (str_int (account_age c))
    (str_int (starting_amount c)) (str_int (current_amount c)) ++ eol.

Definition render_file (eol : str) (clients : list Client) : str :=
  List.concat (map (render_line eol) clients).

(** The Unix and the Windows line terminators. *)
Definition line_ending (eol : str) : Prop :=
  eol = [PyStr.LF] \/ eol = [PyStr.CR; PyStr.LF].

(** ** Lines with whitespace around them *)

(** A line made of the five fields of [client] and the end of the line,
    with nothing asked of the start of the name: the fields hold no
    comma and the numeric fields are integer literals with the record's
    values. *)
Definition line_of_format (line : str) (client : Client) : Prop :=
  exists age starting current eol,
    line = join_fields (name client) (bank client) age starting current ++ eol /\
    all_space eol /\
    no_comma (name client) /\ no_comma (bank client) /\ no_comma age /\
    no_comma starting /\ no_comma current /\ no_trailing_space current /\
    PyStr.int_ age = Ok (account_age client) /\
    PyStr.int_ starting = Ok (starting_amount client) /\
    PyStr.int_ current = Ok (current_amount client).

(** A line made of whitespace, the five fields of [client] and
    whitespace again, the fields being clean. *)
Definition padded_line (line : str) (client : Client) : Prop :=
  exists lead age starting current trail,
    line = lead ++ join_fields (name client) (bank client) age starting current ++ trail /\
    all_space lead /\ all_space trail /\
    clean_fields (name client) (bank client) age starting current /\
    PyStr.int_ age = Ok (account_age client) /\
    PyStr.int_ starting = Ok (starting_amount client) /\
    PyStr.int_ current = Ok (current_amount client).

(** A file whose line starts with a blank. *)
Definition leading_space_text : str :=
  text_of_lines [" Ann,Sprint,10,1000,1000"]%string.

(** ** Tactics for the concrete files *)

(** Shows the first character of the digits [D d]. *)
Ltac uint_head d :=
  unfold uint_chars, lit;
  cbn [DecimalString.NilEmpty.string_of_uint list_ascii_of_string];
  change (list_ascii_of_string (DecimalString.NilEmpty.string_of_uint d))
    with (uint_chars d).

(** Evaluates the digit added to ten times the accumulator. *)
Ltac eval_digit :=
  match goal with
  | |- context [10 * _ + ?k] => let k' := eval vm_compute in k in change k with k'
  end.

Ltac solve_no_comma := cbv; intuition discriminate.

Ltac solve_line age starting current eol :=
  exists age, starting, current, eol;
  repeat split;
  first [ vm_compute; reflexivity
        | solve [repeat constructor]
        | solve_no_comma ].

(** Shows that a concrete record can be written on a line. *)
Ltac solve_storable :=
  unfold storable, no_line_break; repeat split;
  first [ vm_compute; reflexivity
        | vm_compute; discriminate
        | solve_no_comma ].

(** * Properties *)

(** ** Results and loops *)

Lemma for_loop_app {S A : Type} (body : S -> A -> result S) (l1 l2 : list A) (st : S) :
  for_loop body (l1 ++ l2) st = (st' <- for_loop body l1 st ;; for_loop body l2 st').
Proof.
  revert st; induction l1 as [|x l1 IH]; intros st; simpl; [reflexivity|].
  destruct (body st x); simpl; auto.
Qed.

Lemma for_loop_snoc {S A : Type} (body : S -> A -> result S) (l : list A) (x : A) (st : S) :
  for_loop body (l ++ [x]) st = (st' <- for_loop body l st ;; body st' x).
Proof.
  rewrite for_loop_app. destruct (for_loop body l st) as [st'|e]; simpl; [|reflexivity].
  destruct (body st' x); reflexivity.
Qed.

(** ** Order of the floats *)

Lemma float_lt_key (x y : PyFloat.float) :
  PyFloat.is_nan x = false -> PyFloat.is_nan y = false ->
  (PyFloat.lt x y = true <-> PyFloat.key_lt (PyFloat.key x) (PyFloat.key y)).
Proof.
  intros Hx Hy.
  destruct x as [sx|sx| |sx mx ex], y as [sy|sy| |sy my ey]; try discriminate;
    try destruct sx; try destruct sy;
    unfold PyFloat.lt, SFltb, SFcompare, PyFloat.key, PyFloat.key_lt;
    try change (Pos.compare_cont Eq mx my) with (Pos.compare mx my);
    try (destruct (Z.compare_spec ex ey); try destruct (Pos.compare_spec mx my));
    simpl; split; intros Hk; try discriminate; try reflexivity; try lia.
Qed.

Lemma float_eq_key (x y : PyFloat.float) :
  PyFloat.is_nan x = false -> PyFloat.is_nan y = false ->
  (PyFloat.eq x y = true <-> PyFloat.key x = PyFloat.key y).
Proof.
  intros Hx Hy.
  destruct x as [sx|sx| |sx mx ex], y as [sy|sy| |sy my ey]; try discriminate;
    try destruct sx; try destruct sy;
    unfold PyFloat.eq, SFeqb, SFcompare, PyFloat.key;
    try change (Pos.compare_cont Eq mx my) with (Pos.compare mx my);
    try (destruct (Z.compare_spec ex ey); try destruct (Pos.compare_spec mx my));
    simpl; split; intros Hk; try discriminate; try reflexivity;
    try (inversion Hk; lia); try (subst; reflexivity).
Qed.

Lemma key_trichotomy (k1 k2 : Z * Z * Z) :
  PyFloat.key_lt k1 k2 \/ k1 = k2 \/ PyFloat.key_lt k2 k1.
Proof.
  destruct k1 as [[a1 b1] c1], k2 as [[a2 b2] c2]; unfold PyFloat.key_lt.
  destruct (Z.lt_trichotomy a1 a2) as [?|[?|?]]; [lia| |lia].
  destruct (Z.lt_trichotomy b1 b2) as [?|[?|?]]; [lia| |lia].
  destruct (Z.lt_trichotomy c1 c2) as [?|[?|?]]; [lia| |lia].
  right; left; subst; reflexivity.
Qed.

Lemma key_lt_trans (k1 k2 k3 : Z * Z * Z) :
  PyFloat.key_lt k1 k2 -> PyFloat.key_lt k2 k3 -> PyFloat.key_lt k1 k3.
Proof.
  destruct k1 as [[a1 b1] c1], k2 as [[a2 b2] c2], k3 as [[a3 b3] c3].
  unfold PyFloat.key_lt; lia.
Qed.

Lemma key_lt_irrefl (k : Z * Z * Z) : ~ PyFloat.key_lt k k.
Proof. destruct k as [[a b] c]; unfold PyFloat.key_lt; lia. Qed.

Lemma finite_not_nan (x : PyFloat.float) :
  PyFloat.is_finite x = true -> PyFloat.is_nan x = false.
Proof. destruct x; simpl; congruence. Qed.

Lemma neg_inf_below_finite (x : PyFloat.float) :
  PyFloat.is_finite x = true -> PyFloat.lt PyFloat.neg_inf x = true.
Proof. destruct x as [s|s| |s m e]; try discriminate; intros _; destruct s; reflexivity. Qed.

(** ** Division never yields a NaN *)

Lemma iter_pos_invariant {A : Type} (P : A -> Prop) (f : A -> A) :
  (forall a, P a -> P (f a)) -> forall n a, P a -> P (iter_pos f n a).
Proof.
  intros Hf; induction n as [n IH|n IH|]; intros a Ha; simpl; auto.
Qed.

Lemma shr_1_nonneg (mrs : shr_record) : 0 <= shr_m mrs -> 0 <= shr_m (shr_1 mrs).
Proof.
  destruct mrs as [m r s]; simpl; intros Hm.
  destruct m as [|p|p]; [simpl; lia| |lia].
  destruct p; simpl; lia.
Qed.

Lemma shr_fexp_nonneg (m e : Z) (l : location) :
  0 <= m -> 0 <= shr_m (fst (shr_fexp PyFloat.prec PyFloat.emax m e l)).
Proof.
  intros Hm. unfold shr_fexp, shr.
  assert (H0 : 0 <= shr_m (shr_record_of_loc m l)).
  { destruct l as [|[| |]]; simpl; exact Hm. }
  destruct (fexp PyFloat.prec PyFloat.emax (Zdigits2 m + e) - e) as [|p|p]; simpl; auto.
  apply iter_pos_invariant with (P := fun mrs => 0 <= shr_m mrs); auto using shr_1_nonneg.
Qed.

Lemma round_nearest_even_nonneg (m : Z) (l : location) :
  0 <= m -> 0 <= round_nearest_even m l.
Proof.
  intros Hm; destruct l as [|[| |]]; simpl; try lia.
  destruct (Z.even m); lia.
Qed.

Lemma binary_round_aux_not_nan (s : bool) (m e : Z) (l : location) :
  0 <= m -> PyFloat.is_nan (binary_round_aux PyFloat.prec PyFloat.emax s m e l) = false.
Proof.
  intros Hm. unfold binary_round_aux.
  pose proof (shr_fexp_nonneg m e l Hm) as H1.
  destruct (shr_fexp PyFloat.prec PyFloat.emax m e l) as [mrs' e'] eqn:E1. simpl in H1.
  pose proof (shr_fexp_nonneg _ e' loc_Exact
                (round_nearest_even_nonneg _ (loc_of_shr_record mrs') H1)) as H2.
  destruct (shr_fexp PyFloat.prec PyFloat.emax
              (round_nearest_even (shr_m mrs') (loc_of_shr_record mrs')) e' loc_Exact)
    as [mrs'' e''] eqn:E2. simpl in H2.
  destruct (shr_m mrs'') as [|p|p]; [reflexivity| |lia].
  destruct (e'' <=? PyFloat.emax - PyFloat.prec); reflexivity.
Qed.

Lemma div_core_nonneg (m1 m2 : positive) :
  0 <= fst (fst (SFdiv_core_binary PyFloat.prec PyFloat.emax (Zpos m1) 0 (Zpos m2) 0)).
Proof.
  unfold SFdiv_core_binary.
  set (e' := Z.min _ _). set (m' := match 0 - 0 - e' with Z0 => _ | Zpos _ => _ | Zneg _ => _ end).
  assert (Hm' : 0 <= m').
  { subst m'. destruct (0 - 0 - e'); try lia. apply Z.shiftl_nonneg; lia. }
  pose proof (Z_div_mod m' (Zpos m2) eq_refl) as Hd.
  destruct (Z.div_eucl m' (Zpos m2)) as [q r]; simpl.
  destruct Hd as [Hq Hr]. nia.
Qed.

Lemma truediv_finite (a b : Z) (q : PyFloat.float) :
  PyFloat.truediv a b = Ok q -> PyFloat.is_finite q = true.
Proof.
  unfold PyFloat.truediv. destruct (b =? 0) eqn:Hb; [discriminate|].
  apply Z.eqb_neq in Hb.
  assert (Hnan : PyFloat.is_nan
            (SFdiv PyFloat.prec PyFloat.emax (PyFloat.of_int a) (PyFloat.of_int b)) = false).
  { destruct a as [|pa|pa], b as [|pb|pb]; try lia; try reflexivity; unfold PyFloat.of_int, SFdiv;
      pose proof (div_core_nonneg pa pb) as Hc;
      destruct (SFdiv_core_binary PyFloat.prec PyFloat.emax (Zpos pa) 0 (Zpos pb) 0)
        as [[mz ez] lz]; simpl in Hc; apply binary_round_aux_not_nan; exact Hc. }
  destruct (SFdiv PyFloat.prec PyFloat.emax (PyFloat.of_int a) (PyFloat.of_int b));
    intros H; inversion H; subst; try reflexivity; discriminate.
Qed.

Lemma truediv_outcome (a b : Z) :
  b <> 0 -> value_or_overflow (PyFloat.truediv a b).
Proof.
  intros Hb. unfold PyFloat.truediv, value_or_overflow.
  apply Z.eqb_neq in Hb; rewrite Hb.
  destruct (SFdiv PyFloat.prec PyFloat.emax (PyFloat.of_int a) (PyFloat.of_int b));
    eauto.
Qed.

Lemma float_lt_false (x y : PyFloat.float) :
  PyFloat.is_finite x = true -> PyFloat.is_finite y = true ->
  PyFloat.lt x y = false -> ~ PyFloat.key_lt (PyFloat.key x) (PyFloat.key y).
Proof.
  intros Hx Hy H K. apply float_lt_key in K; auto using finite_not_nan. congruence.
Qed.

Lemma float_eq_refl (x : PyFloat.float) :
  PyFloat.is_finite x = true -> PyFloat.eq x x = true.
Proof. intros Hx. apply float_eq_key; auto using finite_not_nan. Qed.

Lemma positive_key (x : PyFloat.float) :
  PyFloat.is_finite x = true ->
  (PyFloat.is_positive x = true <-> PyFloat.key_lt (0, 0, 0) (PyFloat.key x)).
Proof.
  intros Hx. unfold PyFloat.is_positive.
  change (0, 0, 0) with (PyFloat.key (S754_zero false)).
  apply (float_lt_key (S754_zero false) x); auto using finite_not_nan.
Qed.

(** ** The search loop *)

Section Search.

Variable rate : Client -> result PyFloat.float.
Hypothesis rate_finite : forall c r, rate c = Ok r -> PyFloat.is_finite r = true.

Lemma preferred_self (i : nat) (c : Client) (r : PyFloat.float) :
  rate c = Ok r -> preferred rate i c i c.
Proof.
  intros Hr. exists r, r. repeat split; auto.
  right. split; [apply float_eq_refl; eauto|]. right. split; [reflexivity|apply Nat.le_refl].
Qed.

Lemma preferred_key (i j : nat) (c c' : Client) (r r' : PyFloat.float) :
  rate c = Ok r -> rate c' = Ok r' ->
  (preferred rate i c j c' <->
   (PyFloat.key_lt (PyFloat.key r') (PyFloat.key r) \/
    (PyFloat.key r' = PyFloat.key r /\
     (account_age c < account_age c' \/
      (account_age c = account_age c' /\ (i <= j)%nat))))).
Proof.
  intros Hr Hr'.
  pose proof (finite_not_nan _ (rate_finite c r Hr)) as Nr.
  pose proof (finite_not_nan _ (rate_finite c' r' Hr')) as Nr'.
  split.
  - intros (r0 & r0' & E & E' & H). rewrite Hr in E; rewrite Hr' in E'.
    inversion E; inversion E'; subst r0 r0'.
    rewrite (float_lt_key _ _ Nr' Nr), (float_eq_key _ _ Nr' Nr) in H. exact H.
  - intros H. exists r, r'. repeat split; auto.
    rewrite (float_lt_key _ _ Nr' Nr), (float_eq_key _ _ Nr' Nr). exact H.
Qed.

Lemma extremal_choice_unique (clients : list Client) (i j : nat) (c c' : Client) :
  extremal_choice rate clients i c -> extremal_choice rate clients j c' ->
  i = j /\ c = c'.
Proof.
  intros [Hi Hc] [Hj Hc'].
  pose proof (Hc j c' Hj) as P1. pose proof (Hc' i c Hi) as P2.
  destruct P1 as (r & r' & Hr & Hr' & P1').
  assert (P1 : preferred rate i c j c') by (exists r, r'; auto).
  apply (preferred_key i j _ _ _ _ Hr Hr') in P1. apply (preferred_key j i _ _ _ _ Hr' Hr) in P2.
  assert (E : i = j).
  { destruct P1 as [L1|[E1 A1]], P2 as [L2|[E2 A2]].
    - exfalso; eapply key_lt_irrefl, key_lt_trans; eauto.
    - rewrite E2 in L1; exfalso; eapply key_lt_irrefl; eauto.
    - rewrite E1 in L2; exfalso; eapply key_lt_irrefl; eauto.
    - lia. }
  subst j. split; [reflexivity|congruence].
Qed.

Lemma search_step_inv (seen : list Client) (st : search_state) (x : Client)
    (rx : PyFloat.float) :
  rate x = Ok rx -> search_inv rate seen st ->
  exists st', search_step rate st x = Ok st' /\ search_inv rate (seen ++ [x]) st'.
Proof.
  intros Hx Inv. unfold search_step. rewrite Hx; simpl.
  pose proof (rate_finite x rx Hx) as Fx.
  destruct Inv as [[Hnil Hst]|(i & c & r & Hst & Hr & Hi & Hall)]; subst.
  - simpl. rewrite (neg_inf_below_finite _ Fx). simpl.
    eexists; split; [reflexivity|]. right. exists 0%nat, x, rx. repeat split; auto.
    intros j c' Hj. destruct j as [|j]; simpl in Hj.
    + inversion Hj; subst. eapply preferred_self; eauto.
    + destruct j; discriminate.
  - simpl.
    pose proof (rate_finite c r Hr) as Fr.
    assert (Hlen : (i < List.length seen)%nat) by (apply nth_error_Some; congruence).
    assert (Hlast : nth_error (seen ++ [x]) (List.length seen) = Some x).
    { rewrite nth_error_app2, Nat.sub_diag by apply Nat.le_refl. reflexivity. }
    assert (Hcases : forall j c', nth_error (seen ++ [x]) j = Some c' ->
              ((j < List.length seen)%nat /\ nth_error seen j = Some c') \/
              (j = List.length seen /\ c' = x)).
    { intros j c' Hj. destruct (Nat.lt_ge_cases j (List.length seen)) as [Hlt|Hge].
      - left. rewrite nth_error_app1 in Hj by exact Hlt. auto.
      - right. rewrite nth_error_app2 in Hj by exact Hge.
        destruct (j - List.length seen)%nat as [|k] eqn:Hk; simpl in Hj.
        + inversion Hj. split; [lia|reflexivity].
        + destruct k; discriminate. }
    destruct (PyFloat.lt r rx || PyFloat.eq rx r && (account_age x <? account_age c))
      eqn:Hcond.
    + eexists; split; [reflexivity|]. right.
      exists (List.length seen), x, rx. repeat split; auto.
      intros j c' Hj. destruct (Hcases j c' Hj) as [[Hlt Hj']|[-> ->]];
        [|eapply preferred_self; eauto].
      pose proof (Hall j c' Hj') as P. destruct P as (r0 & r' & E0 & Hr' & P').
      assert (P : preferred rate i c j c') by (exists r0, r'; auto).
      apply (preferred_key i j _ _ _ _ Hr Hr') in P. apply (preferred_key (List.length seen) j _ _ _ _ Hx Hr').
      apply orb_true_iff in Hcond. destruct Hcond as [Hlt'|Heq].
      * apply float_lt_key in Hlt'; auto using finite_not_nan.
        left. destruct P as [L|[E _]]; [eapply key_lt_trans; eauto|rewrite E; exact Hlt'].
      * apply andb_true_iff in Heq. destruct Heq as [Heq Hage].
        apply float_eq_key in Heq; auto using finite_not_nan. apply Z.ltb_lt in Hage.
        rewrite Heq. destruct P as [L|[E A]]; [left; exact L|right; split; [exact E|lia]].
    + eexists; split; [reflexivity|]. right. exists i, c, r. repeat split; auto.
      { rewrite nth_error_app1 by exact Hlen. exact Hi. }
      intros j c' Hj. destruct (Hcases j c' Hj) as [[Hlt Hj']|[-> ->]]; [auto|].
      apply (preferred_key i (List.length seen) _ _ _ _ Hr Hx).
      apply orb_false_iff in Hcond. destruct Hcond as [Hlt' Heq].
      apply float_lt_false in Hlt'; auto.
      destruct (key_trichotomy (PyFloat.key rx) (PyFloat.key r)) as [L|[E|G]];
        [left; exact L| |contradiction].
      right. split; [exact E|].
      assert (Heq' : PyFloat.eq rx r = true) by (apply float_eq_key; auto using finite_not_nan).
      rewrite Heq' in Heq. simpl in Heq. apply Z.ltb_ge in Heq. lia.
Qed.

Lemma search_loop_inv (clients : list Client) :
  Forall (fun c => exists r, rate c = Ok r) clients ->
  exists st, for_loop (search_step rate) clients search_init = Ok st /\
             search_inv rate clients st.
Proof.
  induction clients as [|x seen IH] using rev_ind; intros Hall.
  - exists search_init. split; [reflexivity|left; auto].
  - apply Forall_app in Hall. destruct Hall as [Hseen Hx].
    inversion Hx as [|? ? [rx Hrx] _]; subst.
    destruct (IH Hseen) as (st & Hloop & Inv).
    destruct (search_step_inv _ _ _ _ Hrx Inv) as (st' & Hstep & Inv').
    exists st'. split; [|exact Inv'].
    rewrite for_loop_snoc, Hloop. exact Hstep.
Qed.

Lemma search_loop_defined (clients : list Client) (st st' : search_state) :
  for_loop (search_step rate) clients st = Ok st' ->
  Forall (fun c => exists r, rate c = Ok r) clients.
Proof.
  revert st; induction clients as [|x clients IH]; intros st; simpl; [constructor|].
  unfold search_step at 1. destruct (rate x) as [r|e] eqn:Hx; simpl; [|discriminate].
  destruct (_ || _); intros Hloop; constructor; eauto.
Qed.

Lemma search_defined (clients : list Client) (res : option Client) :
  search rate clients = Ok res ->
  Forall (fun c => exists r, rate c = Ok r) clients.
Proof.
  unfold search.
  destruct (for_loop (search_step rate) clients search_init) as [st|e] eqn:Hloop;
    [|discriminate].
  intros _. eapply search_loop_defined; eauto.
Qed.

(** The outcome of the search, in terms of the extremal choice. *)
Lemma search_spec (clients : list Client) :
  Forall (fun c => exists r, rate c = Ok r) clients ->
  exists res, search rate clients = Ok res /\
    forall c, res = Some c <->
      exists i r, extremal_choice rate clients i c /\ rate c = Ok r /\
                  PyFloat.is_positive r = true.
Proof.
  intros Hall. destruct (search_loop_inv _ Hall) as (st & Hloop & Inv).
  unfold search. rewrite Hloop; simpl. eexists; split; [reflexivity|].
  intros c0. destruct Inv as [[Hnil Hst]|(i & c & r & Hst & Hr & Hch)]; subst.
  - simpl. split; [discriminate|].
    intros (i & r & [Hi _] & _). destruct i; discriminate.
  - simpl. destruct (PyFloat.is_positive r) eqn:Hpos; split.
    + intros E; inversion E; subst. exists i, r; auto.
    + intros (j & r' & Hch' & _). destruct (extremal_choice_unique _ _ _ _ _ Hch Hch') as [_ ->].
      reflexivity.
    + discriminate.
    + intros (j & r' & Hch' & Hr' & Hpos').
      destruct (extremal_choice_unique _ _ _ _ _ Hch Hch') as [_ ->]. congruence.
Qed.

(** The search returns [None] exactly when no rate is positive. *)
Lemma search_none (clients : list Client) :
  Forall (fun c => exists r, rate c = Ok r) clients ->
  exists res, search rate clients = Ok res /\
    (res = None <->
     forall c, In c clients -> exists r, rate c = Ok r /\ PyFloat.is_positive r = false).
Proof.
  intros Hall. destruct (search_loop_inv _ Hall) as (st & Hloop & Inv).
  unfold search. rewrite Hloop; simpl. eexists; split; [reflexivity|].
  destruct Inv as [[Hnil Hst]|(i & c & r & Hst & Hr & Hi & Hpref)]; subst.
  - simpl. split; [intros _ c []|reflexivity].
  - simpl. pose proof (rate_finite c r Hr) as Fr.
    destruct (PyFloat.is_positive r) eqn:Hpos; split.
    + discriminate.
    + intros H. destruct (H c (nth_error_In _ _ Hi)) as (r0 & E & Hn). congruence.
    + intros _ c' Hin. apply In_nth_error in Hin. destruct Hin as [j Hj].
      pose proof (Hpref j c' Hj) as P. destruct P as (r0 & r' & E0 & Hr' & P').
      assert (P : preferred rate i c j c') by (exists r0, r'; auto).
      apply (preferred_key i j _ _ _ _ Hr Hr') in P.
      exists r'. split; [exact Hr'|].
      pose proof (rate_finite c' r' Hr') as Fr'.
      destruct (PyFloat.is_positive r') eqn:Hpos'; [|reflexivity].
      apply positive_key in Hpos'; auto.
      assert (K : PyFloat.key_lt (0, 0, 0) (PyFloat.key r)).
      { destruct P as [L|[E _]]; [eapply key_lt_trans; eauto|rewrite <- E; exact Hpos']. }
      apply positive_key in K; auto. congruence.
    + reflexivity.
Qed.

End Search.

(** ** The extremal queries on a record sequence *)

Lemma rate_per_day_finite (m : mode) (c : Client) (r : PyFloat.float) :
  rate_per_day m c = Ok r -> PyFloat.is_finite r = true.
Proof. destruct m; apply truediv_finite. Qed.

Lemma largest_per_day_search (m : mode) (clients : list Client) :
  largest_per_day_clients m clients = search (rate_per_day m) clients.
Proof. destruct m; reflexivity. Qed.

(** The record the search returns is the extremal choice. *)
Lemma returned_is_extremal_choice (m : mode) (clients : list Client) (c : Client) :
  largest_per_day_clients m clients = Ok (Some c) ->
  exists i, extremal_choice (rate_per_day m) clients i c.
Proof.
  rewrite largest_per_day_search. intros Hsome.
  pose proof (search_defined _ clients _ Hsome) as Hall.
  destruct (search_spec _ (rate_per_day_finite m) clients Hall) as (res & Hres & Hiff).
  assert (E : res = Some c) by congruence.
  apply Hiff in E. destruct E as (i & r & Hch & _). eauto.
Qed.

Lemma extremal_choice_single (m : mode) (c : Client) (r : PyFloat.float) :
  rate_per_day m c = Ok r -> extremal_choice (rate_per_day m) [c] 0 c.
Proof.
  intros Hr. split; [reflexivity|].
  intros j c' Hj. destruct j as [|j]; simpl in Hj.
  - inversion Hj; subst. eapply preferred_self; eauto using rate_per_day_finite.
  - destruct j; discriminate.
Qed.

(** C1. In both modes the search returns the record preferred to every
    other one: no record has a larger rate; among the records with the
    same rate it has the strictly smaller [account_age]; among those with
    the same rate and the same age it is the first in input order.  The
    search returns the record [c] if and only if no rate computation
    raises, [c] is that record and its rate is positive. *)
Theorem extremal_tie_break (m : mode) (clients : list Client) (c : Client) :
  largest_per_day_clients m clients = Ok (Some c) <->
  rates_defined m clients /\
  exists i r, extremal_choice (rate_per_day m) clients i c /\
              rate_per_day m c = Ok r /\ PyFloat.is_positive r = true.
Proof.
  rewrite largest_per_day_search. split.
  - intros Hsome.
    pose proof (search_defined _ clients _ Hsome) as Hall.
    destruct (search_spec _ (rate_per_day_finite m) clients Hall) as (res & Hres & Hiff).
    split; [exact Hall|]. apply Hiff. congruence.
  - intros [Hall Hchoice].
    destruct (search_spec _ (rate_per_day_finite m) clients Hall) as (res & Hres & Hiff).
    rewrite Hres. f_equal. apply Hiff. exact Hchoice.
Qed.

(** Of three records earning 100 a day the younger accounts win, and of
    the two youngest the first. *)
Example tie_clients_choice :
  largest_earnings_per_day_clients tie_clients = Ok (Some (client_of "Bob" "Chase" 2 0 200)) /\
  extremal_choice earnings_per_day tie_clients 1 (client_of "Bob" "Chase" 2 0 200).
Proof.
  assert (H : largest_per_day_clients Earn tie_clients
              = Ok (Some (client_of "Bob" "Chase" 2 0 200))) by (vm_compute; reflexivity).
  split; [exact H|].
  apply returned_is_extremal_choice in H. destruct H as [i [Hi Hall]].
  destruct i as [|[|[|i]]];
    [vm_compute in Hi; discriminate| |vm_compute in Hi; discriminate|destruct i; discriminate].
  split; [reflexivity|exact Hall].
Qed.

(** C2. In both modes the search returns [None] exactly when every
    rate is computed and none is positive; this is the case of the empty
    sequence, and a single record is returned exactly when its rate is
    positive. *)
Theorem none_iff_no_positive_rate (m : mode) :
  (forall clients,
     largest_per_day_clients m clients = Ok None <->
     forall c, In c clients -> rate_not_positive m c) /\
  largest_per_day_clients m [] = Ok None /\
  (forall c,
     largest_per_day_clients m [c] = Ok (Some c) <->
     exists r, rate_per_day m c = Ok r /\ PyFloat.is_positive r = true).
Proof.
  split; [|split].
  - intros clients. rewrite largest_per_day_search. split.
    + intros Hnone.
      pose proof (search_defined _ clients _ Hnone) as Hall.
      destruct (search_none _ (rate_per_day_finite m) clients Hall) as (res & Hres & Hiff).
      apply Hiff. congruence.
    + intros Hrates.
      assert (Hall : Forall (fun c => exists r, rate_per_day m c = Ok r) clients).
      { apply Forall_forall. intros c Hc. destruct (Hrates c Hc) as (r & Hr & _). eauto. }
      destruct (search_none _ (rate_per_day_finite m) clients Hall) as (res & Hres & Hiff).
      rewrite Hres. f_equal. apply Hiff. exact Hrates.
  - destruct m; reflexivity.
  - intros c. rewrite largest_per_day_search. split.
    + intros Hsome.
      pose proof (search_defined _ [c] _ Hsome) as Hall.
      destruct (search_spec _ (rate_per_day_finite m) [c] Hall) as (res & Hres & Hiff).
      assert (E : res = Some c) by congruence.
      apply Hiff in E. destruct E as (i & r & _ & Hr & Hpos). eauto.
    + intros (r & Hr & Hpos).
      assert (Hall : Forall (fun c' => exists r', rate_per_day m c' = Ok r') [c])
        by (repeat constructor; eauto).
      destruct (search_spec _ (rate_per_day_finite m) [c] Hall) as (res & Hres & Hiff).
      rewrite Hres. f_equal. apply Hiff. exists 0%nat, r. split; [|auto].
      eapply extremal_choice_single; eauto.
Qed.

(** ** Filtering *)

Lemma str_eqb_eq (a b : str) : PyStr.eqb a b = true <-> a = b.
Proof.
  revert b; induction a as [|x a IH]; intros [|y b]; simpl; split; intros H;
    try discriminate; try reflexivity.
  - apply andb_true_iff in H. destruct H as [Hxy Hab].
    apply Ascii.eqb_eq in Hxy. apply IH in Hab. congruence.
  - inversion H; subst. apply andb_true_iff. split; [apply Ascii.eqb_refl|apply IH; reflexivity].
Qed.

(** C4. The result of the filter consists of the records whose [bank]
    is exactly the given string, each kept in its place: a record is in
    the result if and only if it is in the input and its bank equals the
    string; the result is empty when no record matches; and
    [filter_by_bank] returns this list for the records read. *)
Theorem filter_by_bank_correct (clients : list Client) (b : str) :
  (forall r, In r (filter_by_bank_clients clients b) <-> In r clients /\ bank r = b) /\
  selection (fun r => bank r = b) (filter_by_bank_clients clients b) clients /\
  ((forall r, In r clients -> bank r <> b) -> filter_by_bank_clients clients b = []) /\
  (forall fs filename out,
     read_from_file_into_list fs filename = (out, Ok clients) ->
     filter_by_bank fs filename b = (out, Ok (filter_by_bank_clients clients b))).
Proof.
  unfold filter_by_bank_clients. split; [|split; [|split]].
  - intros r. rewrite filter_In, str_eqb_eq. reflexivity.
  - induction clients as [|x l IH]; simpl; [constructor|].
    destruct (PyStr.eqb (bank x) b) eqn:Hx.
    + apply selection_keep; [apply str_eqb_eq; exact Hx|exact IH].
    + apply selection_skip; [|exact IH]. intros E. apply str_eqb_eq in E. congruence.
  - intros Hno. induction clients as [|x l IH]; simpl; [reflexivity|].
    destruct (PyStr.eqb (bank x) b) eqn:Hx.
    + apply str_eqb_eq in Hx. exfalso. apply (Hno x); [left; reflexivity|exact Hx].
    + apply IH. intros r Hr. apply Hno. right; exact Hr.
  - intros fs filename out Hread. unfold filter_by_bank, io_bind. rewrite Hread. reflexivity.
Qed.

(** ** The queries on the records read *)

(** The two extremal queries run their search on the records read. *)
Lemma largest_per_day_read (fs : filesystem) (filename : str) (out : list str)
    (clients : list Client) :
  read_from_file_into_list fs filename = (out, Ok clients) ->
  largest_earnings_per_day fs filename = (out, largest_earnings_per_day_clients clients) /\
  largest_loss_per_day fs filename = (out, largest_loss_per_day_clients clients).
Proof.
  intros Hread. unfold largest_earnings_per_day, largest_loss_per_day, io_bind.
  rewrite Hread. split; reflexivity.
Qed.

(** ** A missing file *)

(** C3. When no file has the given name, the reader prints one notice
    and returns the empty list without raising; on that name
    [filter_by_bank] returns the empty list and both extremal queries
    return [None]. *)
Theorem missing_file_degrades (fs : filesystem) (filename b : str) :
  fs filename = Raise FileNotFoundError ->
  read_from_file_into_list fs filename = ([not_found_message filename], Ok []) /\
  filter_by_bank fs filename b = ([not_found_message filename], Ok []) /\
  largest_earnings_per_day fs filename = ([not_found_message filename], Ok None) /\
  largest_loss_per_day fs filename = ([not_found_message filename], Ok None).
Proof.
  intros Hmissing.
  unfold filter_by_bank, largest_earnings_per_day, largest_loss_per_day, io_bind,
    read_from_file_into_list.
  rewrite Hmissing. repeat split.
Qed.

Lemma missing_file_degrades_witness :
  scenario_fs (lit "nowhere.txt") = Raise FileNotFoundError /\
  read_from_file_into_list scenario_fs (lit "nowhere.txt")
    = ([not_found_message (lit "nowhere.txt")], Ok []) /\
  filter_by_bank scenario_fs (lit "nowhere.txt") (lit "Sprint")
    = ([not_found_message (lit "nowhere.txt")], Ok []) /\
  largest_earnings_per_day scenario_fs (lit "nowhere.txt")
    = ([not_found_message (lit "nowhere.txt")], Ok None) /\
  largest_loss_per_day scenario_fs (lit "nowhere.txt")
    = ([not_found_message (lit "nowhere.txt")], Ok None).
Proof.
  split; [reflexivity|].
  apply (missing_file_degrades scenario_fs (lit "nowhere.txt") (lit "Sprint")).
  reflexivity.
Defined.

(** ** The scenario *)

(** C6. On the five records of the scenario, [filter_by_bank] with
    "Sprint" returns Ann and Mark in that order, the earning rates are
    0, 20, 100, -1 and -200 and the largest earnings are Josh's, the loss
    rates are 0, -20, -100, 1 and 200 and the largest loss is Franz's. *)
Theorem scenario_queries :
  read_from_file_into_list scenario_fs (lit "clients_info.txt")
    = ([], Ok [Ann; Mark; Josh; Jonah; Franz]) /\
  filter_by_bank scenario_fs (lit "clients_info.txt") (lit "Sprint")
    = ([], Ok [Ann; Mark]) /\
  map earnings_per_day [Ann; Mark; Josh; Jonah; Franz]
    = map (fun z => Ok (PyFloat.from_int z)) [0; 20; 100; -1; -200] /\
  largest_earnings_per_day scenario_fs (lit "clients_info.txt") = ([], Ok (Some Josh)) /\
  map loss_per_day [Ann; Mark; Josh; Jonah; Franz]
    = map (fun z => Ok (PyFloat.from_int z)) [0; -20; -100; 1; 200] /\
  largest_loss_per_day scenario_fs (lit "clients_info.txt") = ([], Ok (Some Franz)).
Proof. repeat split; vm_compute; reflexivity. Qed.

(** ** Division by zero *)

Lemma for_loop_outcome {S A : Type} (body : S -> A -> result S) (items : list A) (st : S) :
  (forall st' x, In x items -> value_or_overflow (body st' x)) ->
  value_or_overflow (for_loop body items st).
Proof.
  revert st; induction items as [|x items IH]; intros st Hbody; simpl.
  - left; eauto.
  - destruct (Hbody st x (or_introl eq_refl)) as [[st' E]|E]; rewrite E.
    + apply IH. intros st'' y Hy. apply Hbody. right; exact Hy.
    + right; reflexivity.
Qed.

Lemma search_outcome (rate : Client -> result PyFloat.float) (clients : list Client) :
  (forall c, In c clients -> value_or_overflow (rate c)) ->
  value_or_overflow (search rate clients).
Proof.
  intros Hrate. unfold search.
  destruct (for_loop_outcome (search_step rate) clients search_init) as [[st E]|E].
  - intros st x Hx. unfold search_step.
    destruct (Hrate x Hx) as [[r Er]|Er]; rewrite Er; simpl; [|right; reflexivity].
    left. destruct (_ || _); eauto.
  - rewrite E; simpl. left; eauto.
  - rewrite E; simpl. right; reflexivity.
Qed.

(** C8, as amended.  When every [account_age] is nonzero no rate
    computation divides by zero: each rate is a float or the computation
    raises [OverflowError], never [ZeroDivisionError], and the same
    holds of the two extremal queries; [filter_by_bank] computes no rate
    and returns a list. *)
Theorem no_division_by_zero (clients : list Client) :
  Forall (fun c => account_age c <> 0) clients ->
  (forall c, In c clients ->
     value_or_overflow (earnings_per_day c) /\ value_or_overflow (loss_per_day c)) /\
  value_or_overflow (largest_earnings_per_day_clients clients) /\
  value_or_overflow (largest_loss_per_day_clients clients) /\
  (forall fs filename out,
     read_from_file_into_list fs filename = (out, Ok clients) ->
     value_or_overflow (snd (largest_earnings_per_day fs filename)) /\
     value_or_overflow (snd (largest_loss_per_day fs filename)) /\
     forall b, exists res, snd (filter_by_bank fs filename b) = Ok res).
Proof.
  intros Hages. rewrite Forall_forall in Hages.
  assert (Hrates : forall c, In c clients ->
            value_or_overflow (earnings_per_day c) /\ value_or_overflow (loss_per_day c)).
  { intros c Hc. split; apply truediv_outcome; auto. }
  assert (Hearn : value_or_overflow (largest_earnings_per_day_clients clients)).
  { apply search_outcome. intros c Hc. apply Hrates; exact Hc. }
  assert (Hloss : value_or_overflow (largest_loss_per_day_clients clients)).
  { apply search_outcome. intros c Hc. apply Hrates; exact Hc. }
  repeat split; auto; try (apply Hrates; assumption).
  - unfold largest_earnings_per_day, io_bind. rewrite H. exact Hearn.
  - unfold largest_loss_per_day, io_bind. rewrite H. exact Hloss.
  - intros b. unfold filter_by_bank, io_bind. rewrite H. simpl. eauto.
Qed.

Lemma no_division_by_zero_witness :
  Forall (fun c => account_age c <> 0) tie_clients /\
  (forall c, In c tie_clients ->
     value_or_overflow (earnings_per_day c) /\ value_or_overflow (loss_per_day c)) /\
  value_or_overflow (largest_earnings_per_day_clients tie_clients) /\
  value_or_overflow (largest_loss_per_day_clients tie_clients) /\
  (forall fs filename out,
     read_from_file_into_list fs filename = (out, Ok tie_clients) ->
     value_or_overflow (snd (largest_earnings_per_day fs filename)) /\
     value_or_overflow (snd (largest_loss_per_day fs filename)) /\
     forall b, exists res, snd (filter_by_bank fs filename b) = Ok res).
Proof.
  assert (H : Forall (fun c => account_age c <> 0) tie_clients).
  { unfold tie_clients. repeat constructor; simpl; lia. }
  split; [exact H|apply (no_division_by_zero tie_clients H)].
Defined.

(** C8 as stated fails: with a nonzero [account_age] the rate
    computation still raises when the quotient is too large for a
    float, and so does the query that computes it. *)
Lemma rate_not_total_counterexample :
  account_age huge_gain <> 0 /\
  earnings_per_day huge_gain = Raise OverflowError /\
  largest_earnings_per_day_clients [huge_gain] = Raise OverflowError /\
  largest_loss_per_day_clients [swap_amounts huge_gain] = Raise OverflowError.
Proof. repeat split; try (vm_compute; reflexivity). vm_compute; discriminate. Qed.

(** ** Loss and earnings *)

Lemma binary_round_aux_opp (s : bool) (m e : Z) (l : location) :
  binary_round_aux PyFloat.prec PyFloat.emax (negb s) m e l
  = SFopp (binary_round_aux PyFloat.prec PyFloat.emax s m e l).
Proof.
  unfold binary_round_aux.
  destruct (shr_fexp PyFloat.prec PyFloat.emax m e l) as [mrs' e'].
  destruct (shr_fexp PyFloat.prec PyFloat.emax _ e' loc_Exact) as [mrs'' e''].
  destruct (shr_m mrs''); try reflexivity.
  destruct (e'' <=? PyFloat.emax - PyFloat.prec); reflexivity.
Qed.

Lemma SFdiv_opp (a b : Z) :
  SFdiv PyFloat.prec PyFloat.emax (PyFloat.of_int (- a)) (PyFloat.of_int b)
  = SFopp (SFdiv PyFloat.prec PyFloat.emax (PyFloat.of_int a) (PyFloat.of_int b))
  \/ a = 0.
Proof.
  destruct a as [|pa|pa]; [right; reflexivity| |]; left;
    destruct b as [|pb|pb]; try reflexivity; simpl;
    destruct (SFdiv_core_binary PyFloat.prec PyFloat.emax (Zpos pa) 0 (Zpos pb) 0)
      as [[mz ez] lz];
    first [ apply (binary_round_aux_opp false)
          | apply (binary_round_aux_opp true)
          | rewrite <- (binary_round_aux_opp true); reflexivity
          | rewrite <- (binary_round_aux_opp false); reflexivity ].
Qed.

(** The two divisions raise the same exception or return floats of
    which one is the negation of the other. *)
Lemma truediv_opp (a b : Z) :
  match PyFloat.truediv a b, PyFloat.truediv (- a) b with
  | Ok e, Ok l => PyFloat.eq l (PyFloat.neg e) = true
  | Raise x, Raise y => x = y
  | _, _ => False
  end.
Proof.
  destruct (PyFloat.truediv a b) as [e|x] eqn:Ea.
  - pose proof (truediv_finite a b e Ea) as Fe.
    unfold PyFloat.truediv in *. destruct (b =? 0); [discriminate|].
    destruct (SFdiv_opp a b) as [->| ->].
    + destruct (SFdiv PyFloat.prec PyFloat.emax (PyFloat.of_int a) (PyFloat.of_int b));
        inversion Ea; subst; try discriminate; simpl;
        apply float_eq_key; try reflexivity; destruct s; reflexivity.
    + simpl Z.opp. rewrite Ea.
      destruct b as [|pb|pb]; simpl in Ea; inversion Ea; subst; try discriminate; reflexivity.
  - unfold PyFloat.truediv in *. destruct (b =? 0); [congruence|].
    destruct (SFdiv_opp a b) as [->| ->].
    + destruct (SFdiv PyFloat.prec PyFloat.emax (PyFloat.of_int a) (PyFloat.of_int b));
        inversion Ea; subst; reflexivity.
    + simpl Z.opp. rewrite Ea. reflexivity.
Qed.

Lemma swap_amounts_involutive (c : Client) : swap_amounts (swap_amounts c) = c.
Proof. destruct c; reflexivity. Qed.

Lemma search_loop_swap (clients : list Client) (st : search_state) :
  for_loop (search_step earnings_per_day) (map swap_amounts clients) (swap_state st)
  = (st' <- for_loop (search_step loss_per_day) clients st ;; Ok (swap_state st')).
Proof.
  revert st; induction clients as [|x clients IH]; intros st; simpl; [reflexivity|].
  unfold search_step at 1 3.
  change (earnings_per_day (swap_amounts x)) with (loss_per_day x).
  destruct (loss_per_day x) as [r|e]; simpl; [|reflexivity].
  destruct (_ || _); [|apply IH].
  apply (IH {| max_rate := r; earliest_time := Days (account_age x); best := Some x |}).
Qed.

Lemma largest_swap (clients : list Client) :
  largest_earnings_per_day_clients (map swap_amounts clients)
  = (res <- largest_loss_per_day_clients clients ;; Ok (option_map swap_amounts res)).
Proof.
  unfold largest_earnings_per_day_clients, largest_loss_per_day_clients, search.
  change (for_loop (search_step earnings_per_day) (map swap_amounts clients) search_init)
    with (for_loop (search_step earnings_per_day) (map swap_amounts clients)
            (swap_state search_init)).
  rewrite search_loop_swap.
  destruct (for_loop (search_step loss_per_day) clients search_init) as [st|e]; simpl;
    [|reflexivity].
  destruct (PyFloat.is_positive (max_rate st)); reflexivity.
Qed.

Lemma extremal_choice_swap (clients : list Client) (i : nat) (c : Client) :
  extremal_choice loss_per_day clients i c <->
  extremal_choice earnings_per_day (map swap_amounts clients) i (swap_amounts c).
Proof.
  unfold extremal_choice. split; intros [Hi Hall]; split.
  - rewrite nth_error_map, Hi. reflexivity.
  - intros j c'' Hj. rewrite nth_error_map in Hj.
    destruct (nth_error clients j) as [c'|] eqn:Ej; [|discriminate].
    inversion Hj; subst c''. exact (Hall j c' Ej).
  - rewrite nth_error_map in Hi.
    destruct (nth_error clients i) as [c0|]; [|discriminate].
    apply (f_equal (option_map swap_amounts)) in Hi. cbn [option_map] in Hi.
    rewrite !swap_amounts_involutive in Hi. exact Hi.
  - intros j c' Hj. apply (Hall j (swap_amounts c')).
    rewrite nth_error_map, Hj. reflexivity.
Qed.

(** C9. The loss rate of a record is the negation of its earning rate
    (both computations raise the same exception when one raises), and
    the largest loss of a sequence is found at the position where the
    largest earnings are found once the two amounts of every record are
    exchanged: the two queries return the same record up to the
    exchange, the extremal positions coincide, and a returned record
    stands at such a position. *)
Theorem loss_is_negated_earning :
  (forall c,
     match earnings_per_day c, loss_per_day c with
     | Ok e, Ok l => PyFloat.eq l (PyFloat.neg e) = true
     | Raise x, Raise y => x = y
     | _, _ => False
     end) /\
  (forall clients,
     largest_earnings_per_day_clients (map swap_amounts clients)
     = (res <- largest_loss_per_day_clients clients ;; Ok (option_map swap_amounts res))) /\
  (forall clients i c,
     extremal_choice loss_per_day clients i c <->
     extremal_choice earnings_per_day (map swap_amounts clients) i (swap_amounts c)) /\
  (forall clients c,
     largest_loss_per_day_clients clients = Ok (Some c) ->
     exists i,
       extremal_choice loss_per_day clients i c /\
       extremal_choice earnings_per_day (map swap_amounts clients) i (swap_amounts c) /\
       largest_earnings_per_day_clients (map swap_amounts clients)
       = Ok (Some (swap_amounts c))).
Proof.
  split; [|split; [|split]].
  - intros c. unfold earnings_per_day, loss_per_day.
    replace (starting_amount c - current_amount c)
      with (- (current_amount c - starting_amount c)) by lia.
    apply truediv_opp.
  - exact largest_swap.
  - exact extremal_choice_swap.
  - intros clients c Hloss.
    destruct (returned_is_extremal_choice Loss clients c Hloss) as [i Hch].
    exists i. split; [exact Hch|]. split; [apply extremal_choice_swap; exact Hch|].
    rewrite largest_swap, Hloss. reflexivity.
Qed.

(** ** Stripping and splitting *)

Lemma drop_while_app (p : ascii -> bool) (a b : str) :
  PyStr.drop_while p (a ++ b)
  = match PyStr.drop_while p a with
    | [] => PyStr.drop_while p b
    | d => d ++ b
    end.
Proof.
  induction a as [|c a IH]; simpl; [destruct (PyStr.drop_while p b); reflexivity|].
  destruct (p c); [exact IH|reflexivity].
Qed.

Lemma drop_while_all (p : ascii -> bool) (s : str) :
  Forall (fun c => p c = true) s -> PyStr.drop_while p s = [].
Proof.
  induction 1 as [|c s Hc _ IH]; simpl; [reflexivity|]. rewrite Hc. exact IH.
Qed.

Lemma drop_while_pad (p : ascii -> bool) (pad s : str) :
  Forall (fun c => p c = true) pad ->
  PyStr.drop_while p (pad ++ s) = PyStr.drop_while p s.
Proof.
  intros Hpad. rewrite drop_while_app, (drop_while_all p pad Hpad). reflexivity.
Qed.

(** Characters of the set around a text do not change what is left. *)
Lemma strip_with_pad (p : ascii -> bool) (lead s trail : str) :
  Forall (fun c => p c = true) lead -> Forall (fun c => p c = true) trail ->
  PyStr.strip_with p (lead ++ s ++ trail) = PyStr.strip_with p s.
Proof.
  intros Hlead Htrail. unfold PyStr.strip_with.
  rewrite (drop_while_pad p lead _ Hlead), drop_while_app.
  destruct (PyStr.drop_while p s) as [|d ds] eqn:Hs.
  - rewrite (drop_while_all p trail Htrail). reflexivity.
  - rewrite rev_app_distr, drop_while_pad; [reflexivity|].
    apply Forall_rev. exact Htrail.
Qed.

Lemma strip_with_fixed (p : ascii -> bool) (s : str) :
  PyStr.drop_while p s = s -> PyStr.drop_while p (rev s) = rev s ->
  PyStr.strip_with p s = s.
Proof.
  intros Hl Hr. unfold PyStr.strip_with. rewrite Hl, Hr. apply rev_involutive.
Qed.

Lemma drop_while_length (p : ascii -> bool) (s : str) :
  (List.length (PyStr.drop_while p s) <= List.length s)%nat.
Proof.
  induction s as [|c s IH]; simpl; [apply Nat.le_refl|].
  destruct (p c); simpl; lia.
Qed.

(** A text that [drop_while] leaves alone still is one when followed by
    a character outside the set. *)
Lemma drop_while_fixed_app (p : ascii -> bool) (s r : str) (y : ascii) :
  PyStr.drop_while p s = s -> p y = false ->
  PyStr.drop_while p (s ++ y :: r) = s ++ y :: r.
Proof.
  intros Hs Hy. destruct s as [|c s]; simpl in *; [rewrite Hy; reflexivity|].
  destruct (p c); [|reflexivity].
  pose proof (drop_while_length p s) as Hlen. rewrite Hs in Hlen. simpl in Hlen. lia.
Qed.

Lemma split_no_sep (sep : ascii) (s : str) :
  ~ In sep s -> PyStr.split sep s = [s].
Proof.
  induction s as [|c s IH]; intros Hs; simpl; [reflexivity|].
  destruct (Ascii.eqb c sep) eqn:Hc.
  - apply Ascii.eqb_eq in Hc. exfalso. apply Hs. left; exact Hc.
  - rewrite IH; [reflexivity|]. intros H. apply Hs. right; exact H.
Qed.

Lemma split_app_sep (sep : ascii) (a r : str) :
  ~ In sep a -> PyStr.split sep (a ++ sep :: r) = a :: PyStr.split sep r.
Proof.
  induction a as [|c a IH]; intros Ha; simpl.
  - rewrite Ascii.eqb_refl. reflexivity.
  - destruct (Ascii.eqb c sep) eqn:Hc.
    + apply Ascii.eqb_eq in Hc. exfalso. apply Ha. left; exact Hc.
    + rewrite IH; [reflexivity|]. intros H. apply Ha. right; exact H.
Qed.

Lemma rev_app_sep (a r : str) (sep : ascii) :
  rev (a ++ sep :: r) = rev r ++ sep :: rev a.
Proof. rewrite rev_app_distr. simpl. rewrite <- app_assoc. reflexivity. Qed.

Lemma comma_not_space : PyStr.isspace PyStr.comma = false.
Proof. reflexivity. Qed.

Lemma strip_join_fields (name bank age starting current : str) :
  clean_fields name bank age starting current ->
  PyStr.strip (join_fields name bank age starting current)
  = join_fields name bank age starting current.
Proof.
  intros (_ & _ & _ & _ & _ & Hlead & Htrail).
  apply strip_with_fixed; unfold join_fields.
  - apply drop_while_fixed_app; [exact Hlead|apply comma_not_space].
  - rewrite !rev_app_sep, <- !app_assoc.
    apply drop_while_fixed_app; [exact Htrail|apply comma_not_space].
Qed.

Lemma split_join_fields (name bank age starting current : str) :
  clean_fields name bank age starting current ->
  PyStr.split PyStr.comma (join_fields name bank age starting current)
  = [name; bank; age; starting; current].
Proof.
  intros (Hn & Hb & Ha & Hs & Hc & _). unfold join_fields.
  rewrite !split_app_sep by assumption. rewrite split_no_sep by assumption.
  reflexivity.
Qed.

(** ** Parsing a line *)

Lemma parse_line_pad (lead line trail : str) :
  all_space lead -> all_space trail ->
  parse_line (lead ++ line ++ trail) = parse_line line.
Proof.
  intros Hlead Htrail. unfold parse_line, PyStr.strip.
  rewrite strip_with_pad by assumption. reflexivity.
Qed.

Lemma parse_line_fields (name bank age starting current : str) :
  clean_fields name bank age starting current ->
  parse_line (join_fields name bank age starting current)
  = (a <- PyStr.int_ age ;;
     s <- PyStr.int_ starting ;;
     c <- PyStr.int_ current ;;
     Ok {| name := name; bank := bank; account_age := a;
           starting_amount := s; current_amount := c |}).
Proof.
  intros Hclean. unfold parse_line.
  rewrite strip_join_fields, split_join_fields by exact Hclean. reflexivity.
Qed.

Lemma parse_line_blank (line : str) :
  all_space line -> parse_line line = Raise ValueError.
Proof.
  intros Hline. unfold parse_line, PyStr.strip, PyStr.strip_with.
  rewrite (drop_while_all _ line Hline). reflexivity.
Qed.

Lemma int_raises_value_error (s : str) (e : exn) :
  PyStr.int_ s = Raise e -> e = ValueError.
Proof.
  unfold PyStr.int_.
  destruct (match PyStr.strip_with PyStr.int_space s with
            | [] => _ | c :: rest => _ end) as [negative body].
  destruct (PyStr.int_digits body) as [[value digits]|]; [|congruence].
  destruct (PyStr.max_str_digits <? digits); congruence.
Qed.

Lemma parse_line_raises_value_error (line : str) (e : exn) :
  parse_line line = Raise e -> e = ValueError.
Proof.
  unfold parse_line.
  destruct (PyStr.split PyStr.comma (PyStr.strip line)) as [|f1 [|f2 [|f3 [|f4 [|f5 [|f6 l]]]]]];
    try congruence.
  destruct (PyStr.int_ f3) as [a|e3] eqn:E3; simpl;
    [|intros H; inversion H; subst; eapply int_raises_value_error; eauto].
  destruct (PyStr.int_ f4) as [s|e4] eqn:E4; simpl;
    [|intros H; inversion H; subst; eapply int_raises_value_error; eauto].
  destruct (PyStr.int_ f5) as [c|e5] eqn:E5; simpl;
    [discriminate|intros H; inversion H; subst; eapply int_raises_value_error; eauto].
Qed.

Lemma malformed_raises (line : str) :
  malformed line -> parse_line line = Raise ValueError.
Proof.
  intros Hbad.
  destruct (parse_line line) as [client|e] eqn:Hparse;
    [|f_equal; eapply parse_line_raises_value_error; eauto].
  exfalso. unfold malformed, parse_line, not_an_int in *.
  destruct (PyStr.split PyStr.comma (PyStr.strip line)) as [|f1 [|f2 [|f3 [|f4 [|f5 [|f6 l]]]]]];
    try discriminate.
  destruct (PyStr.int_ f3) as [a|e3]; [|discriminate].
  destruct (PyStr.int_ f4) as [s|e4]; [|discriminate].
  destruct (PyStr.int_ f5) as [c|e5]; [|discriminate].
  destruct Hbad as [H|[H|H]]; eapply H; reflexivity.
Qed.

(** ** Reading a file *)

Lemma read_existing (fs : filesystem) (filename text : str) :
  fs filename = Ok text ->
  read_from_file_into_list fs filename
  = ([], for_loop append_client (PyStr.readlines text) []).
Proof. intros H. unfold read_from_file_into_list. rewrite H. reflexivity. Qed.

Lemma append_loop_well_formed (lines : list str) (clients acc : list Client) :
  Forall2 well_formed_line lines clients ->
  for_loop append_client lines acc = Ok (acc ++ clients).
Proof.
  intros Hwf. revert acc.
  induction Hwf as [|line client lines clients Hline _ IH]; intros acc; simpl.
  - rewrite app_nil_r. reflexivity.
  - destruct Hline as (age & starting & current & eol & -> & Heol & Hclean & Ha & Hs & Hc).
    unfold append_client.
    pose proof (parse_line_pad []
                  (join_fields (name client) (bank client) age starting current) eol
                  (Forall_nil _) Heol) as Hpad.
    rewrite app_nil_l in Hpad. rewrite Hpad.
    rewrite (parse_line_fields _ _ _ _ _ Hclean), Ha, Hs, Hc. simpl.
    rewrite IH, <- app_assoc. destruct client; reflexivity.
Qed.

Lemma append_loop_malformed (lines : list str) (acc : list Client) :
  Exists malformed lines -> for_loop append_client lines acc = Raise ValueError.
Proof.
  intros Hbad. revert acc.
  induction lines as [|line lines IH]; intros acc; [inversion Hbad|]. simpl.
  unfold append_client at 1.
  destruct (parse_line line) as [client|e] eqn:Hparse; simpl.
  - apply IH. inversion Hbad as [? ? Hline|]; subst; [|assumption].
    rewrite (malformed_raises line Hline) in Hparse. discriminate.
  - f_equal. eapply parse_line_raises_value_error; eauto.
Qed.

Lemma append_loop_parses (lines : list str) (acc res : list Client) :
  for_loop append_client lines acc = Ok res <->
  exists clients,
    res = acc ++ clients /\
    Forall2 (fun line c => parse_line line = Ok c) lines clients.
Proof.
  revert acc; induction lines as [|line lines IH]; intros acc; simpl.
  - split.
    + intros H. inversion H; subst. exists []. rewrite app_nil_r. split; constructor.
    + intros (clients & -> & H). inversion H; subst. rewrite app_nil_r. reflexivity.
  - unfold append_client at 1. destruct (parse_line line) as [c|e] eqn:Hline; simpl.
    + rewrite IH. split.
      * intros (clients & -> & H). exists (c :: clients).
        rewrite <- app_assoc. split; [reflexivity|constructor; assumption].
      * intros (clients & -> & H). inversion H as [|? c' ? clients' Hc Hrest]; subst.
        assert (c' = c) by congruence; subst c'.
        exists clients'. rewrite <- app_assoc. split; [reflexivity|assumption].
    + split; [discriminate|].
      intros (clients & _ & H). inversion H; subst. congruence.
Qed.

Lemma blank_line_malformed (line : str) : all_space line -> malformed line.
Proof.
  intros Hline. unfold malformed, PyStr.strip, PyStr.strip_with.
  rewrite (drop_while_all _ line Hline). exact I.
Qed.

Lemma append_loop_padded (lines : list str) (clients acc : list Client) :
  Forall2 padded_line lines clients ->
  for_loop append_client lines acc = Ok (acc ++ clients).
Proof.
  intros Hlines. revert acc.
  induction Hlines as [|line client lines clients Hline _ IH]; intros acc; simpl.
  - rewrite app_nil_r. reflexivity.
  - destruct Hline
      as (lead & age & starting & current & trail & -> & Hlead & Htrail & Hclean & Ha & Hs & Hc).
    unfold append_client.
    rewrite (parse_line_pad lead _ trail Hlead Htrail).
    rewrite (parse_line_fields _ _ _ _ _ Hclean), Ha, Hs, Hc. simpl.
    rewrite IH, <- app_assoc. destruct client; reflexivity.
Qed.

(** C5, as amended.  A file that exists and all of whose N lines are
    well formed is read as exactly N records in the order of the lines:
    the name and the bank of each record are the first two text fields
    of its line, unchanged, and the three numbers are what [int] makes
    of the other three fields.  A well-formed line has its five fields
    separated by commas and ends with its terminator; its numeric fields
    are literals that [int] accepts, and its name does not start with
    whitespace. *)
Theorem well_formed_file_parses (fs : filesystem) (filename text : str)
    (clients : list Client) :
  fs filename = Ok text ->
  Forall2 well_formed_line (PyStr.readlines text) clients ->
  read_from_file_into_list fs filename = ([], Ok clients) /\
  List.length clients = List.length (PyStr.readlines text).
Proof.
  intros Hfile Hlines. split.
  - rewrite (read_existing fs filename text Hfile).
    rewrite (append_loop_well_formed _ clients [] Hlines). reflexivity.
  - symmetry. eapply Forall2_length; eauto.
Qed.

Lemma well_formed_file_parses_witness :
  scenario_fs (lit "clients_info.txt") = Ok (text_of_lines scenario_lines) /\
  Forall2 well_formed_line (PyStr.readlines (text_of_lines scenario_lines))
    [Ann; Mark; Josh; Jonah; Franz] /\
  read_from_file_into_list scenario_fs (lit "clients_info.txt")
    = ([], Ok [Ann; Mark; Josh; Jonah; Franz]) /\
  List.length [Ann; Mark; Josh; Jonah; Franz]
    = List.length (PyStr.readlines (text_of_lines scenario_lines)).
Proof.
  assert (Hfile : scenario_fs (lit "clients_info.txt") = Ok (text_of_lines scenario_lines))
    by reflexivity.
  assert (Hlines : Forall2 well_formed_line (PyStr.readlines (text_of_lines scenario_lines))
                     [Ann; Mark; Josh; Jonah; Franz]).
  { let l := eval vm_compute in (PyStr.readlines (text_of_lines scenario_lines)) in
    change (Forall2 well_formed_line l [Ann; Mark; Josh; Jonah; Franz]).
    repeat apply Forall2_cons; [| | | | |apply Forall2_nil].
    - solve_line (lit "10") (lit "1000") (lit "1000") [PyStr.LF].
    - solve_line (lit "5") (lit "500") (lit "600") [PyStr.LF].
    - solve_line (lit "2") (lit "100") (lit "300") [PyStr.LF].
    - solve_line (lit "100") (lit "1000") (lit "900") [PyStr.LF].
    - solve_line (lit "4") (lit "1000") (lit "200") [PyStr.LF]. }
  split; [exact Hfile|]. split; [exact Hlines|].
  apply (well_formed_file_parses scenario_fs (lit "clients_info.txt")
           (text_of_lines scenario_lines) [Ann; Mark; Josh; Jonah; Franz] Hfile Hlines).
Defined.

(** C5 as stated fails.  The line [ Ann,Sprint,10,1000,1000] has the
    five fields of the format, its name field starting with a blank; the
    record read from it has the name [Ann], not that field. *)
Lemma verbatim_name_counterexample :
  Forall2 line_of_format (PyStr.readlines leading_space_text)
    [client_of " Ann" "Sprint" 10 1000 1000] /\
  read_from_file_into_list (single_file (lit "f.txt") leading_space_text) (lit "f.txt")
    = ([], Ok [client_of "Ann" "Sprint" 10 1000 1000]) /\
  name (client_of "Ann" "Sprint" 10 1000 1000) <> lit " Ann" /\
  read_from_file_into_list (single_file (lit "f.txt") leading_space_text) (lit "f.txt")
    <> ([], Ok [client_of " Ann" "Sprint" 10 1000 1000]).
Proof.
  split; [|split; [vm_compute; reflexivity|split; vm_compute; discriminate]].
  let l := eval vm_compute in (PyStr.readlines leading_space_text) in
  change (Forall2 line_of_format l [client_of " Ann" "Sprint" 10 1000 1000]).
  apply Forall2_cons; [|apply Forall2_nil].
  exists (lit "10"), (lit "1000"), (lit "1000"), [PyStr.LF].
  repeat split;
    first [ vm_compute; reflexivity | solve [repeat constructor] | solve_no_comma ].
Qed.

(** C7, as amended.  Every line of the file is parsed: the reader
    returns a list exactly when each line yields a record, one record
    for each line, and a line that is empty once stripped yields none,
    it makes the read fail with [ValueError].  The line as a whole is
    stripped of the whitespace around it and then split at the commas:
    the name and the bank are the text between the commas, with any
    blank next to a comma kept; the numeric fields are cast by [int],
    which ignores the blanks around a literal. *)
Theorem parse_line_strips_the_line (fs : filesystem) (filename text : str)
    (lead trail name bank age starting current : str) :
  fs filename = Ok text ->
  all_space lead -> all_space trail ->
  clean_fields name bank age starting current ->
  (forall clients,
     read_from_file_into_list fs filename = ([], Ok clients) <->
     Forall2 (fun line c => parse_line line = Ok c) (PyStr.readlines text) clients) /\
  (Exists all_space (PyStr.readlines text) ->
   read_from_file_into_list fs filename = ([], Raise ValueError)) /\
  (forall clients,
     Forall2 padded_line (PyStr.readlines text) clients ->
     read_from_file_into_list fs filename = ([], Ok clients)) /\
  parse_line (lead ++ join_fields name bank age starting current ++ trail)
  = (a <- PyStr.int_ age ;;
     s <- PyStr.int_ starting ;;
     c <- PyStr.int_ current ;;
     Ok {| name := name; bank := bank; account_age := a;
           starting_amount := s; current_amount := c |}) /\
  parse_line (lead ++ trail) = Raise ValueError /\
  (forall field pad pad',
     all_int_space pad -> all_int_space pad' ->
     PyStr.int_ (pad ++ field ++ pad') = PyStr.int_ field).
Proof.
  intros Hfile Hlead Htrail Hclean.
  rewrite (read_existing fs filename text Hfile).
  split; [|split; [|split; [|split; [|split]]]].
  - intros clients. split.
    + intros H. inversion H as [Hloop]. apply append_loop_parses in Hloop.
      destruct Hloop as (cs & -> & Hcs). exact Hcs.
    + intros H. f_equal. apply append_loop_parses. exists clients. auto.
  - intros Hblank. f_equal. apply append_loop_malformed.
    apply Exists_exists in Hblank. destruct Hblank as (line & Hin & Hline).
    apply Exists_exists. exists line. split; [exact Hin|].
    apply blank_line_malformed. exact Hline.
  - intros clients Hlines. f_equal.
    exact (append_loop_padded _ clients [] Hlines).
  - rewrite (parse_line_pad lead _ trail Hlead Htrail).
    apply parse_line_fields. exact Hclean.
  - apply parse_line_blank. apply Forall_app. split; assumption.
  - intros field pad pad' Hpad Hpad'. unfold PyStr.int_.
    rewrite (strip_with_pad PyStr.int_space pad field pad' Hpad Hpad'). reflexivity.
Qed.

Lemma parse_line_strips_the_line_witness :
  single_file (lit "f.txt") padded_text (lit "f.txt") = Ok padded_text /\
  all_space (lit "  ") /\ all_space (lit "  " ++ [PyStr.LF]) /\
  clean_fields (lit "Ann ") (lit " Sprint ") (lit " 10 ") (lit " 1000 ") (lit " 1000") /\
  (forall clients,
     read_from_file_into_list (single_file (lit "f.txt") padded_text) (lit "f.txt")
       = ([], Ok clients) <->
     Forall2 (fun line c => parse_line line = Ok c) (PyStr.readlines padded_text) clients) /\
  (Exists all_space (PyStr.readlines padded_text) ->
   read_from_file_into_list (single_file (lit "f.txt") padded_text) (lit "f.txt")
     = ([], Raise ValueError)) /\
  (forall clients,
     Forall2 padded_line (PyStr.readlines padded_text) clients ->
     read_from_file_into_list (single_file (lit "f.txt") padded_text) (lit "f.txt")
       = ([], Ok clients)) /\
  parse_line (lit "  " ++
              join_fields (lit "Ann ") (lit " Sprint ") (lit " 10 ") (lit " 1000 ") (lit " 1000")
              ++ lit "  " ++ [PyStr.LF])
  = (a <- PyStr.int_ (lit " 10 ") ;;
     s <- PyStr.int_ (lit " 1000 ") ;;
     c <- PyStr.int_ (lit " 1000") ;;
     Ok {| name := lit "Ann "; bank := lit " Sprint "; account_age := a;
           starting_amount := s; current_amount := c |}) /\
  parse_line (lit "  " ++ lit "  " ++ [PyStr.LF]) = Raise ValueError /\
  (forall field pad pad',
     all_int_space pad -> all_int_space pad' ->
     PyStr.int_ (pad ++ field ++ pad') = PyStr.int_ field).
Proof.
  assert (Hfile : single_file (lit "f.txt") padded_text (lit "f.txt") = Ok padded_text)
    by reflexivity.
  assert (Hlead : all_space (lit "  ")) by (repeat constructor).
  assert (Htrail : all_space (lit "  " ++ [PyStr.LF])) by (repeat constructor).
  assert (Hclean : clean_fields (lit "Ann ") (lit " Sprint ") (lit " 10 ") (lit " 1000 ")
                     (lit " 1000")).
  { repeat split; first [vm_compute; reflexivity | solve_no_comma]. }
  split; [exact Hfile|]. split; [exact Hlead|]. split; [exact Htrail|]. split; [exact Hclean|].
  apply (parse_line_strips_the_line _ (lit "f.txt") padded_text _ _ _ _ _ _ _
           Hfile Hlead Htrail Hclean).
Defined.

(** C7 as stated fails.  An empty line makes the reader raise, and a
    line with blanks around its fields yields a record whose name and
    bank carry the blanks next to the commas. *)
Lemma parse_trimming_counterexample :
  read_from_file_into_list (single_file (lit "f.txt") blank_line_text) (lit "f.txt")
    = ([], Raise ValueError) /\
  exists c,
    read_from_file_into_list (single_file (lit "f.txt") padded_text) (lit "f.txt")
      = ([], Ok [c]) /\
    name c = lit "Ann " /\ bank c = lit " Sprint " /\
    PyStr.strip (name c) <> name c /\ PyStr.strip (bank c) <> bank c.
Proof.
  split; [vm_compute; reflexivity|].
  exists (client_of "Ann " " Sprint " 10 1000 1000).
  repeat split; try (vm_compute; reflexivity); vm_compute; discriminate.
Qed.

(** C10. When the file exists and one of its lines is malformed (its
    comma-split has not exactly five fields, as for a blank line, or one
    of its three numeric fields is not an integer literal), the reader
    raises [ValueError] instead of returning a list, and so do the three
    queries. *)
Theorem malformed_line_raises (fs : filesystem) (filename text b : str) :
  fs filename = Ok text ->
  Exists malformed (PyStr.readlines text) ->
  read_from_file_into_list fs filename = ([], Raise ValueError) /\
  filter_by_bank fs filename b = ([], Raise ValueError) /\
  largest_earnings_per_day fs filename = ([], Raise ValueError) /\
  largest_loss_per_day fs filename = ([], Raise ValueError).
Proof.
  intros Hfile Hbad.
  assert (Hread : read_from_file_into_list fs filename = ([], Raise ValueError)).
  { rewrite (read_existing fs filename text Hfile).
    rewrite (append_loop_malformed _ [] Hbad). reflexivity. }
  unfold filter_by_bank, largest_earnings_per_day, largest_loss_per_day, io_bind.
  rewrite Hread. repeat split.
Qed.

Lemma malformed_line_raises_witness :
  single_file (lit "f.txt") blank_line_text (lit "f.txt") = Ok blank_line_text /\
  Exists malformed (PyStr.readlines blank_line_text) /\
  read_from_file_into_list (single_file (lit "f.txt") blank_line_text) (lit "f.txt")
    = ([], Raise ValueError) /\
  filter_by_bank (single_file (lit "f.txt") blank_line_text) (lit "f.txt") (lit "Sprint")
    = ([], Raise ValueError) /\
  largest_earnings_per_day (single_file (lit "f.txt") blank_line_text) (lit "f.txt")
    = ([], Raise ValueError) /\
  largest_loss_per_day (single_file (lit "f.txt") blank_line_text) (lit "f.txt")
    = ([], Raise ValueError).
Proof.
  assert (Hfile : single_file (lit "f.txt") blank_line_text (lit "f.txt") = Ok blank_line_text)
    by reflexivity.
  assert (Hbad : Exists malformed (PyStr.readlines blank_line_text)).
  { let l := eval vm_compute in (PyStr.readlines blank_line_text) in
    change (Exists malformed l).
    apply Exists_cons_tl, Exists_cons_hd. exact I. }
  split; [exact Hfile|]. split; [exact Hbad|].
  apply (malformed_line_raises _ (lit "f.txt") blank_line_text (lit "Sprint") Hfile Hbad).
Defined.

(** A numeric field that is not an integer literal makes the line
    malformed as well. *)
Example not_numeric_line_malformed :
  Exists malformed (PyStr.readlines not_numeric_text) /\
  read_from_file_into_list (single_file (lit "f.txt") not_numeric_text) (lit "f.txt")
    = ([], Raise ValueError).
Proof.
  split; [|vm_compute; reflexivity].
  let l := eval vm_compute in (PyStr.readlines not_numeric_text) in
  change (Exists malformed l).
  apply Exists_cons_tl, Exists_cons_hd.
  left. intros z H. vm_compute in H. discriminate.
Qed.

(** * Further properties *)

(** ** [int] on decimal numerals *)

Lemma scan_digit_step (c : ascii) (k : Z) (rest : str) (v n : Z) :
  PyStr.digit_value c = Some k -> Ascii.eqb c PyStr.underscore = false ->
  PyStr.scan_digits (c :: rest) false v n
  = PyStr.scan_digits rest false (10 * v + k) (n + 1).
Proof. intros Hk Hu. simpl. rewrite Hu, Hk. reflexivity. Qed.

Lemma scan_digits_acc (d : Decimal.uint) (acc : positive) (n : Z) :
  PyStr.scan_digits (uint_chars d) false (Zpos acc) n
  = Some (Zpos (Pos.of_uint_acc d acc), n + Z.of_nat (List.length (uint_chars d))).
Proof.
  revert acc n; induction d as [|d IH|d IH|d IH|d IH|d IH|d IH|d IH|d IH|d IH|d IH];
    intros acc n;
    [simpl; f_equal; f_equal; lia|..];
    uint_head d;
    erewrite scan_digit_step by reflexivity;
    cbn [Pos.of_uint_acc]; eval_digit;
    match goal with
    | |- PyStr.scan_digits _ _ ?v _ = Some (Z.pos (Pos.of_uint_acc _ ?p), _) =>
        replace v with (Z.pos p) by lia
    end;
    rewrite IH; f_equal; f_equal; cbn [List.length]; lia.
Qed.

Lemma scan_digits_uint (d : Decimal.uint) (n : Z) :
  PyStr.scan_digits (uint_chars d) false 0 n
  = Some (Z.of_N (Pos.of_uint d), n + Z.of_nat (List.length (uint_chars d))).
Proof.
  revert n; induction d as [|d IH|d IH|d IH|d IH|d IH|d IH|d IH|d IH|d IH|d IH];
    intros n;
    [simpl; f_equal; f_equal; lia|..];
    uint_head d;
    erewrite scan_digit_step by reflexivity;
    cbn [Pos.of_uint]; eval_digit;
    [ change (10 * 0 + 0) with 0; rewrite IH | simpl (10 * 0 + _); rewrite scan_digits_acc .. ];
    f_equal; f_equal; cbn [List.length]; lia.
Qed.

Lemma int_digits_uint (d : Decimal.uint) :
  d <> Decimal.Nil ->
  PyStr.int_digits (uint_chars d)
  = Some (Z.of_N (Pos.of_uint d), Z.of_nat (List.length (uint_chars d))).
Proof.
  intros Hd. rewrite <- (Z.add_0_l (Z.of_nat _)), <- scan_digits_uint.
  destruct d; [contradiction|reflexivity..].
Qed.

Lemma uint_chars_numeral (d : Decimal.uint) :
  Forall (fun c => numeral_char c = true) (uint_chars d).
Proof.
  induction d; [constructor|..]; uint_head d; constructor; auto.
Qed.

Lemma str_int_numeral (z : Z) :
  Forall (fun c => numeral_char c = true) (str_int z).
Proof.
  destruct z as [|p|p]; unfold str_int; simpl.
  - repeat constructor.
  - apply uint_chars_numeral.
  - constructor; [reflexivity|apply uint_chars_numeral].
Qed.

Lemma numeral_char_not_space (c : ascii) :
  numeral_char c = true -> PyStr.isspace c = false /\ PyStr.int_space c = false.
Proof.
  destruct c as [[] [] [] [] [] [] [] []]; intros H; try discriminate H; split; reflexivity.
Qed.

Lemma drop_while_none (p : ascii -> bool) (s : str) :
  Forall (fun c => p c = false) s -> PyStr.drop_while p s = s.
Proof. intros H. destruct H as [|c s Hc _]; simpl; [reflexivity|]. rewrite Hc. reflexivity. Qed.

Lemma numeral_fixed (p : ascii -> bool) (s : str) :
  (forall c, numeral_char c = true -> p c = false) ->
  Forall (fun c => numeral_char c = true) s ->
  PyStr.drop_while p s = s /\ PyStr.drop_while p (rev s) = rev s.
Proof.
  intros Hp Hs.
  assert (H : Forall (fun c => p c = false) s).
  { eapply Forall_impl; [|exact Hs]. exact Hp. }
  split; apply drop_while_none; [exact H|apply Forall_rev; exact H].
Qed.

Lemma strip_int_space_str_int (z : Z) :
  PyStr.strip_with PyStr.int_space (str_int z) = str_int z.
Proof.
  destruct (numeral_fixed PyStr.int_space (str_int z)) as [Hl Hr];
    [intros c Hc; apply numeral_char_not_space; exact Hc|apply str_int_numeral|].
  apply strip_with_fixed; assumption.
Qed.

(** [int] reads the decimal numeral of [z] back, unless it has more
    digits than [int] accepts. *)
Lemma int_str_int (z : Z) :
  PyStr.int_ (str_int z)
  = if digits_of z <=? PyStr.max_str_digits then Ok z else Raise ValueError.
Proof.
  unfold PyStr.int_. rewrite strip_int_space_str_int.
  destruct z as [|p|p].
  - reflexivity.
  - pose proof (int_digits_uint (Pos.to_uint p) (DecimalPos.Unsigned.to_uint_nonnil p)) as Hd.
    rewrite DecimalPos.Unsigned.of_to in Hd.
    assert (Hsign : (let '(negative, body) :=
                       match str_int (Zpos p) with
                       | [] => (false, str_int (Zpos p))
                       | c :: rest =>
                           if Ascii.eqb c "-"%char then (true, rest)
                           else if Ascii.eqb c "+"%char then (false, rest)
                           else (false, str_int (Zpos p))
                       end in (negative, body)) = (false, uint_chars (Pos.to_uint p))).
    { unfold str_int. change (Z.to_int (Zpos p)) with (Decimal.Pos (Pos.to_uint p)).
      pose proof (DecimalPos.Unsigned.to_uint_nonnil p) as Hn.
      destruct (Pos.to_uint p); [contradiction|reflexivity..]. }
    destruct (match str_int (Zpos p) with [] => _ | c :: rest => _ end) as [negative body].
    inversion Hsign; subst. rewrite Hd.
    unfold digits_of. change (str_int (Z.abs (Zpos p))) with (uint_chars (Pos.to_uint p)).
    destruct (Z.leb_spec (Z.of_nat (List.length (uint_chars (Pos.to_uint p))))
                PyStr.max_str_digits) as [Hle|Hgt].
    + apply Z.ltb_ge in Hle. rewrite Hle. reflexivity.
    + apply Z.ltb_lt in Hgt. rewrite Hgt. reflexivity.
  - pose proof (int_digits_uint (Pos.to_uint p) (DecimalPos.Unsigned.to_uint_nonnil p)) as Hd.
    rewrite DecimalPos.Unsigned.of_to in Hd.
    change (str_int (Zneg p)) with ("-"%char :: uint_chars (Pos.to_uint p)).
    cbn [Ascii.eqb Bool.eqb]. cbv iota. rewrite Hd.
    unfold digits_of. change (str_int (Z.abs (Zneg p))) with (uint_chars (Pos.to_uint p)).
    destruct (Z.leb_spec (Z.of_nat (List.length (uint_chars (Pos.to_uint p))))
                PyStr.max_str_digits) as [Hle|Hgt].
    + apply Z.ltb_ge in Hle. rewrite Hle. reflexivity.
    + apply Z.ltb_lt in Hgt. rewrite Hgt. reflexivity.
Qed.

(** X1. [int] reads the decimal numeral of an integer back, with or
    without blanks around it: [int(str(z)) == z], unless the numeral has
    more than [max_str_digits] digits, when [int] raises [ValueError]. *)
Theorem int_reads_numeral (z : Z) (pad pad' : str) :
  all_int_space pad -> all_int_space pad' ->
  PyStr.int_ (pad ++ str_int z ++ pad')
  = if digits_of z <=? PyStr.max_str_digits then Ok z else Raise ValueError.
Proof.
  intros Hpad Hpad'. rewrite <- int_str_int. unfold PyStr.int_.
  rewrite (strip_with_pad PyStr.int_space pad (str_int z) pad' Hpad Hpad'). reflexivity.
Qed.

Lemma int_reads_numeral_witness :
  all_int_space (lit " ") /\ all_int_space [PyStr.LF] /\
  PyStr.int_ (lit " " ++ str_int (-1200) ++ [PyStr.LF])
  = if digits_of (-1200) <=? PyStr.max_str_digits then Ok (-1200) else Raise ValueError.
Proof.
  assert (H1 : all_int_space (lit " ")) by (repeat constructor).
  assert (H2 : all_int_space [PyStr.LF]) by (repeat constructor).
  split; [exact H1|]. split; [exact H2|].
  apply (int_reads_numeral (-1200) (lit " ") [PyStr.LF] H1 H2).
Defined.

(** ** Lines of a written file *)

Lemma translate_newlines_clean (l r : str) :
  ~ In PyStr.CR l ->
  PyStr.translate_newlines (l ++ r) = l ++ PyStr.translate_newlines r.
Proof.
  induction l as [|c l IH]; intros Hl; [reflexivity|].
  simpl app. cbn [PyStr.translate_newlines].
  destruct (Ascii.eqb c PyStr.CR) eqn:Hc.
  - apply Ascii.eqb_eq in Hc. exfalso. apply Hl. left; auto.
  - f_equal. apply IH. intros H. apply Hl. right; exact H.
Qed.

Lemma translate_newlines_ending (eol r : str) :
  line_ending eol ->
  PyStr.translate_newlines (eol ++ r) = PyStr.LF :: PyStr.translate_newlines r.
Proof. intros [-> | ->]; reflexivity. Qed.

Lemma split_lines_clean (l r : str) :
  ~ In PyStr.LF l ->
  PyStr.split_lines (l ++ PyStr.LF :: r) = (l ++ [PyStr.LF]) :: PyStr.split_lines r.
Proof.
  induction l as [|c l IH]; intros Hl; [reflexivity|].
  simpl app. cbn [PyStr.split_lines].
  destruct (Ascii.eqb c PyStr.LF) eqn:Hc.
  - apply Ascii.eqb_eq in Hc. exfalso. apply Hl. left; auto.
  - rewrite IH; [reflexivity|]. intros H. apply Hl. right; exact H.
Qed.

Lemma readlines_line (l eol r : str) :
  no_line_break l -> line_ending eol ->
  PyStr.readlines ((l ++ eol) ++ r) = (l ++ [PyStr.LF]) :: PyStr.readlines r.
Proof.
  intros [Hlf Hcr] Heol. unfold PyStr.readlines.
  rewrite <- app_assoc, translate_newlines_clean by exact Hcr.
  rewrite translate_newlines_ending by exact Heol.
  apply split_lines_clean. exact Hlf.
Qed.

Lemma numeral_no (x : ascii) (z : Z) :
  numeral_char x = false -> ~ In x (str_int z).
Proof.
  intros Hx Hin. pose proof (str_int_numeral z) as H.
  rewrite Forall_forall in H. apply H in Hin. congruence.
Qed.

Lemma no_line_break_app (a b : str) :
  no_line_break a -> no_line_break b -> no_line_break (a ++ b).
Proof.
  intros [Ha1 Ha2] [Hb1 Hb2]. split; intros H; apply in_app_or in H; tauto.
Qed.

Lemma no_line_break_cons (c : ascii) (s : str) :
  numeral_char c = true \/ c = PyStr.comma -> no_line_break s -> no_line_break (c :: s).
Proof.
  intros Hc [H1 H2]. split; intros [E|H]; try tauto; subst c;
    destruct Hc as [Hc|Hc]; discriminate Hc.
Qed.

Lemma str_int_no_line_break (z : Z) : no_line_break (str_int z).
Proof. split; apply numeral_no; reflexivity. Qed.

Lemma storable_fields (c : Client) :
  storable c ->
  no_line_break (join_fields (name c) (bank c) (str_int (account_age c))
                   (str_int (starting_amount c)) (str_int (current_amount c))) /\
  well_formed_line
    (join_fields (name c) (bank c) (str_int (account_age c))
       (str_int (starting_amount c)) (str_int (current_amount c)) ++ [PyStr.LF]) c.
Proof.
  intros (Hn & Hb & Hnl & Hbl & Hlead & Ha & Hs & Hc). split.
  - unfold join_fields.
    repeat first [ apply no_line_break_app
                 | apply no_line_break_cons; [right; reflexivity|]
                 | apply str_int_no_line_break
                 | assumption ].
  - exists (str_int (account_age c)), (str_int (starting_amount c)),
      (str_int (current_amount c)), [PyStr.LF].
    split; [reflexivity|]. split; [repeat constructor|]. split.
    + repeat split; try assumption; try (apply numeral_no; reflexivity).
      apply (numeral_fixed PyStr.isspace).
      * intros x Hx. apply numeral_char_not_space; exact Hx.
      * apply str_int_numeral.
    + rewrite !int_str_int.
      apply Z.leb_le in Ha, Hs, Hc. rewrite Ha, Hs, Hc. auto.
Qed.

Lemma readlines_render_file (eol : str) (clients : list Client) :
  line_ending eol -> Forall storable clients ->
  Forall2 well_formed_line (PyStr.readlines (render_file eol clients)) clients.
Proof.
  intros Heol Hall. induction Hall as [|c clients Hc _ IH].
  - constructor.
  - destruct (storable_fields c Hc) as [Hbreak Hline].
    unfold render_file. cbn [map List.concat]. unfold render_line at 1.
    rewrite readlines_line by assumption.
    constructor; [exact Hline|exact IH].
Qed.

(** X2. Reading a written file gives the records back.  When every
    record is written on a line of its own as
    [name,bank,account_age,starting_amount,current_amount], the numbers
    in decimal, with Unix or Windows line ends, the reader returns
    exactly these records, in order, and prints nothing.  (The texts
    hold no comma and no line break, the name does not start with
    whitespace and the numbers have at most [max_str_digits] digits.) *)
Theorem read_written_file (fs : filesystem) (filename eol : str)
    (clients : list Client) :
  line_ending eol -> Forall storable clients ->
  fs filename = Ok (render_file eol clients) ->
  read_from_file_into_list fs filename = ([], Ok clients).
Proof.
  intros Heol Hall Hfile.
  rewrite (read_existing fs filename _ Hfile).
  rewrite (append_loop_well_formed _ clients [] (readlines_render_file eol clients Heol Hall)).
  reflexivity.
Qed.

Lemma read_written_file_witness :
  line_ending [PyStr.CR; PyStr.LF] /\
  Forall storable [Ann; Jonah] /\
  single_file (lit "f.txt") (render_file [PyStr.CR; PyStr.LF] [Ann; Jonah]) (lit "f.txt")
    = Ok (render_file [PyStr.CR; PyStr.LF] [Ann; Jonah]) /\
  read_from_file_into_list
    (single_file (lit "f.txt") (render_file [PyStr.CR; PyStr.LF] [Ann; Jonah])) (lit "f.txt")
    = ([], Ok [Ann; Jonah]).
Proof.
  assert (Heol : line_ending [PyStr.CR; PyStr.LF]) by (right; reflexivity).
  assert (Hall : Forall storable [Ann; Jonah]).
  { repeat apply Forall_cons; [solve_storable|solve_storable|apply Forall_nil]. }
  assert (Hfile : single_file (lit "f.txt") (render_file [PyStr.CR; PyStr.LF] [Ann; Jonah])
                    (lit "f.txt") = Ok (render_file [PyStr.CR; PyStr.LF] [Ann; Jonah]))
    by reflexivity.
  split; [exact Heol|]. split; [exact Hall|]. split; [exact Hfile|].
  apply (read_written_file _ (lit "f.txt") [PyStr.CR; PyStr.LF] [Ann; Jonah] Heol Hall Hfile).
Defined.

(** ** The reader returns all records or none *)


(** X3. The reader returns all records or none.  On an existing file
    it returns a list exactly when every line can be parsed, and the
    list then holds one record for each line, in the order of the
    lines. *)
Theorem reader_all_or_nothing (fs : filesystem) (filename text : str)
    (clients : list Client) :
  fs filename = Ok text ->
  (read_from_file_into_list fs filename = ([], Ok clients) <->
   Forall2 (fun line c => parse_line line = Ok c) (PyStr.readlines text) clients) /\
  (forall out res, read_from_file_into_list fs filename = (out, Ok res) ->
     out = [] /\ List.length res = List.length (PyStr.readlines text)).
Proof.
  intros Hfile. rewrite (read_existing fs filename text Hfile). split.
  - split.
    + intros H. inversion H as [Hloop]. apply append_loop_parses in Hloop.
      destruct Hloop as (cs & -> & Hcs). exact Hcs.
    + intros H. f_equal. apply append_loop_parses. exists clients. auto.
  - intros out res H. inversion H as [[Hout Hloop]]. split; [reflexivity|].
    apply append_loop_parses in Hloop. destruct Hloop as (cs & -> & Hcs).
    symmetry. apply (Forall2_length Hcs).
Qed.

Lemma reader_all_or_nothing_witness :
  scenario_fs (lit "clients_info.txt") = Ok (text_of_lines scenario_lines) /\
  (read_from_file_into_list scenario_fs (lit "clients_info.txt")
     = ([], Ok [Ann; Mark; Josh; Jonah; Franz]) <->
   Forall2 (fun line c => parse_line line = Ok c)
     (PyStr.readlines (text_of_lines scenario_lines)) [Ann; Mark; Josh; Jonah; Franz]) /\
  (forall out res,
     read_from_file_into_list scenario_fs (lit "clients_info.txt") = (out, Ok res) ->
     out = [] /\
     List.length res = List.length (PyStr.readlines (text_of_lines scenario_lines))).
Proof.
  split; [reflexivity|].
  apply (reader_all_or_nothing scenario_fs (lit "clients_info.txt")
           (text_of_lines scenario_lines) [Ann; Mark; Josh; Jonah; Franz]).
  reflexivity.
Defined.

(** ** What the texts of a record read cannot hold *)

Lemma drop_while_suffix (p : ascii -> bool) (s : str) :
  exists w, s = w ++ PyStr.drop_while p s.
Proof.
  induction s as [|c s [w IH]]; simpl; [exists []; reflexivity|].
  destruct (p c); [|exists []; reflexivity].
  exists (c :: w). simpl. f_equal. exact IH.
Qed.

Lemma drop_while_In (p : ascii -> bool) (s : str) (x : ascii) :
  In x (PyStr.drop_while p s) -> In x s.
Proof.
  intros H. destruct (drop_while_suffix p s) as [w E]. rewrite E.
  apply in_or_app. right; exact H.
Qed.

Lemma drop_while_head (p : ascii -> bool) (s t : str) (c : ascii) :
  PyStr.drop_while p s = c :: t -> p c = false.
Proof.
  induction s as [|x s IH]; simpl; [discriminate|].
  destruct (p x) eqn:Hx; [exact IH|]. intros H. inversion H; subst. exact Hx.
Qed.

Lemma strip_with_In (p : ascii -> bool) (s : str) (x : ascii) :
  In x (PyStr.strip_with p s) -> In x s.
Proof.
  unfold PyStr.strip_with. intros H.
  apply in_rev, drop_while_In, in_rev, drop_while_In in H. exact H.
Qed.

Lemma prefix_no_leading (p : ascii -> bool) (f r : str) :
  PyStr.drop_while p (f ++ r) = f ++ r -> PyStr.drop_while p f = f.
Proof.
  destruct f as [|c f]; [reflexivity|]. intros H.
  apply drop_while_head in H. simpl. rewrite H. reflexivity.
Qed.

Lemma strip_with_no_leading (p : ascii -> bool) (s : str) :
  PyStr.drop_while p (PyStr.strip_with p s) = PyStr.strip_with p s.
Proof.
  unfold PyStr.strip_with. set (d := PyStr.drop_while p s).
  destruct (drop_while_suffix p (rev d)) as [w E].
  apply (f_equal (@rev ascii)) in E. rewrite rev_involutive, rev_app_distr in E.
  destruct (rev (PyStr.drop_while p (rev d))) as [|c t] eqn:Hres; [reflexivity|].
  simpl in E. simpl.
  assert (Hc : p c = false).
  { subst d. eapply drop_while_head. exact E. }
  rewrite Hc. reflexivity.
Qed.

Lemma split_field_no_sep (sep : ascii) (s field : str) :
  In field (PyStr.split sep s) -> ~ In sep field.
Proof.
  revert field; induction s as [|c s IH]; intros field; simpl.
  - intros [<-|[]] [].
  - destruct (Ascii.eqb c sep) eqn:Hc.
    + intros [<-|H]; [intros []|apply IH; exact H].
    + destruct (PyStr.split sep s) as [|f fs].
      * intros [<-|[]] [E|[]]. subst c. rewrite Ascii.eqb_refl in Hc. discriminate.
      * intros [<-|H].
        -- intros [E|H]; [subst c; rewrite Ascii.eqb_refl in Hc; discriminate|].
           apply (IH f); [left; reflexivity|exact H].
        -- apply IH. right; exact H.
Qed.

Lemma split_field_chars (sep : ascii) (s field : str) (x : ascii) :
  In field (PyStr.split sep s) -> In x field -> In x s.
Proof.
  revert field; induction s as [|c s IH]; intros field; simpl.
  - intros [<-|[]] [].
  - destruct (Ascii.eqb c sep) eqn:Hc.
    + intros [<-|H]; [intros []|]. intros Hx. right. apply (IH field); assumption.
    + destruct (PyStr.split sep s) as [|f fs].
      * intros [<-|[]] [E|[]]. left; exact E.
      * intros [<-|H].
        -- intros [E|Hx]; [left; exact E|]. right. apply (IH f); [left; reflexivity|exact Hx].
        -- intros Hx. right. apply (IH field); [right; exact H|exact Hx].
Qed.

Lemma split_head_prefix (sep : ascii) (s field : str) (fields : list str) :
  PyStr.split sep s = field :: fields -> exists r, s = field ++ r.
Proof.
  revert field fields; induction s as [|c s IH]; intros field fields; simpl.
  - intros H. inversion H. exists []. reflexivity.
  - destruct (Ascii.eqb c sep).
    + intros H. inversion H. exists (c :: s). reflexivity.
    + destruct (PyStr.split sep s) as [|f fs] eqn:Hs.
      * intros H. inversion H.
        destruct s; [exists []; reflexivity|].
        simpl in Hs. destruct (Ascii.eqb a sep); [discriminate|].
        destruct (PyStr.split sep s); discriminate.
      * intros H. destruct (IH f fs eq_refl) as [r ->].
        inversion H. exists r. reflexivity.
Qed.

Lemma parse_line_texts (line : str) (c : Client) :
  parse_line line = Ok c ->
  no_comma (name c) /\ no_comma (bank c) /\ no_leading_space (name c) /\
  (forall x, In x (name c) \/ In x (bank c) -> In x (PyStr.strip line)).
Proof.
  unfold parse_line.
  destruct (PyStr.split PyStr.comma (PyStr.strip line))
    as [|f1 [|f2 [|f3 [|f4 [|f5 [|f6 l]]]]]] eqn:Hsplit; try discriminate.
  destruct (PyStr.int_ f3) as [a|e3]; [|discriminate].
  destruct (PyStr.int_ f4) as [s|e4]; [|discriminate].
  destruct (PyStr.int_ f5) as [k|e5]; [|discriminate].
  simpl. intros H. inversion H; subst; simpl.
  assert (H1 : In f1 (PyStr.split PyStr.comma (PyStr.strip line)))
    by (rewrite Hsplit; left; reflexivity).
  assert (H2 : In f2 (PyStr.split PyStr.comma (PyStr.strip line)))
    by (rewrite Hsplit; right; left; reflexivity).
  split; [exact (split_field_no_sep _ _ _ H1)|].
  split; [exact (split_field_no_sep _ _ _ H2)|]. split.
  - destruct (split_head_prefix _ _ _ _ Hsplit) as [r Hr].
    apply (prefix_no_leading PyStr.isspace f1 r). rewrite <- Hr.
    apply strip_with_no_leading.
  - intros x [Hx|Hx];
      [exact (split_field_chars _ _ _ x H1 Hx)|exact (split_field_chars _ _ _ x H2 Hx)].
Qed.

Lemma translate_newlines_no_CR (n : nat) (s : str) :
  (List.length s <= n)%nat -> ~ In PyStr.CR (PyStr.translate_newlines s).
Proof.
  revert s; induction n as [|n IH]; intros s Hlen.
  - destruct s; [intros []|simpl in Hlen; lia].
  - destruct s as [|c s]; [intros []|]. simpl in Hlen. cbn [PyStr.translate_newlines].
    destruct (Ascii.eqb c PyStr.CR) eqn:Hc.
    + destruct s as [|c' s]; [intros [E|[]]; discriminate E|].
      destruct (Ascii.eqb c' PyStr.LF); intros [E|H]; try discriminate E;
        revert H; apply IH; simpl in *; lia.
    + intros [E|H]; [subst c; rewrite Ascii.eqb_refl in Hc; discriminate|].
      revert H. apply IH. lia.
Qed.

Lemma split_lines_shape (s line : str) :
  In line (PyStr.split_lines s) ->
  exists body,
    (line = body ++ [PyStr.LF] \/ line = body) /\ ~ In PyStr.LF body /\
    forall x, In x body -> In x s.
Proof.
  revert line; induction s as [|c s IH]; intros line; simpl; [intros []|].
  destruct (Ascii.eqb c PyStr.LF) eqn:Hc.
  - intros [<-|H].
    + exists []. split; [left; reflexivity|]. split; [intros []|intros x []].
    + destruct (IH line H) as (body & Hb & Hlf & Hin).
      exists body. split; [exact Hb|]. split; [exact Hlf|]. intros x Hx. right; auto.
  - assert (Hne : c <> PyStr.LF) by (intros ->; rewrite Ascii.eqb_refl in Hc; discriminate).
    destruct (PyStr.split_lines s) as [|l ls].
    + intros [<-|[]]. exists [c]. split; [right; reflexivity|].
      split; [intros [E|[]]; congruence|intros x [E|[]]; left; exact E].
    + intros [<-|H].
      * destruct (IH l (or_introl eq_refl)) as (body & Hb & Hlf & Hin).
        exists (c :: body). split; [destruct Hb as [-> | ->]; [left|right]; reflexivity|].
        split; [intros [E|Hx]; [congruence|tauto]|].
        intros x [E|Hx]; [left; exact E|right; auto].
      * destruct (IH line (or_intror H)) as (body & Hb & Hlf & Hin).
        exists body. split; [exact Hb|]. split; [exact Hlf|]. intros x Hx. right; auto.
Qed.

Lemma readlines_shape (text line : str) :
  In line (PyStr.readlines text) ->
  exists body, (line = body ++ [PyStr.LF] \/ line = body) /\ no_line_break body.
Proof.
  unfold PyStr.readlines. intros H.
  destruct (split_lines_shape _ _ H) as (body & Hb & Hlf & Hin).
  exists body. split; [exact Hb|]. split; [exact Hlf|].
  intros Hcr. apply Hin in Hcr.
  exact (translate_newlines_no_CR (List.length text) text (Nat.le_refl _) Hcr).
Qed.

Lemma line_clean_texts (text line : str) (c : Client) :
  In line (PyStr.readlines text) -> parse_line line = Ok c -> clean_texts c.
Proof.
  intros Hline Hparse.
  destruct (parse_line_texts line c Hparse) as (Hn & Hb & Hlead & Hin).
  destruct (readlines_shape text line Hline) as (body & Hshape & Hlf & Hcr).
  assert (Hstrip : forall x, In x (PyStr.strip line) -> In x body).
  { intros x Hx. destruct Hshape as [-> | ->].
    - unfold PyStr.strip in Hx.
      assert (Hsp : Forall (fun a => PyStr.isspace a = true) [PyStr.LF])
        by (repeat constructor).
      pose proof (strip_with_pad PyStr.isspace [] body [PyStr.LF] (Forall_nil _) Hsp) as E.
      rewrite app_nil_l in E. rewrite E in Hx. eapply strip_with_In; eauto.
    - eapply strip_with_In; eauto. }
  repeat split; try assumption; intros H; [apply Hlf|apply Hcr|apply Hlf|apply Hcr];
    apply Hstrip, Hin; auto.
Qed.

Lemma Forall2_right_In {A B : Type} (R : A -> B -> Prop) (l : list A) (l' : list B) (b : B) :
  Forall2 R l l' -> In b l' -> exists a, In a l /\ R a b.
Proof.
  induction 1 as [|x y l l' Hxy _ IH]; intros Hin; [destruct Hin|].
  destruct Hin as [<-|Hin].
  - exists x. split; [left; reflexivity|exact Hxy].
  - destruct (IH Hin) as (a & Ha & HR). exists a. split; [right; exact Ha|exact HR].
Qed.

Lemma records_read_clean (fs : filesystem) (filename : str) (out : list str)
    (clients : list Client) :
  read_from_file_into_list fs filename = (out, Ok clients) ->
  Forall clean_texts clients.
Proof.
  unfold read_from_file_into_list.
  destruct (fs filename) as [text|e] eqn:Hfile.
  - intros H. inversion H as [[Hout Hloop]].
    apply append_loop_parses in Hloop. destruct Hloop as (cs & -> & Hcs).
    apply Forall_forall. intros c Hc.
    destruct (Forall2_right_In _ _ _ c Hcs Hc) as (line & Hline & Hparse).
    exact (line_clean_texts text line c Hline Hparse).
  - destruct e; intros H; inversion H; constructor.
Qed.

(** X4. Whatever the file holds, the records read from it have a name
    and a bank without any comma or line break, and a name that does
    not start with whitespace. *)
Theorem records_read_have_clean_texts (fs : filesystem) (filename : str)
    (out : list str) (clients : list Client) (c : Client) :
  read_from_file_into_list fs filename = (out, Ok clients) ->
  In c clients ->
  no_comma (name c) /\ no_comma (bank c) /\
  no_line_break (name c) /\ no_line_break (bank c) /\
  no_leading_space (name c).
Proof.
  intros Hread Hc. pose proof (records_read_clean fs filename out clients Hread) as H.
  rewrite Forall_forall in H. exact (H c Hc).
Qed.

Lemma records_read_have_clean_texts_witness :
  read_from_file_into_list (single_file (lit "f.txt") padded_text) (lit "f.txt")
    = ([], Ok [client_of "Ann " " Sprint " 10 1000 1000]) /\
  In (client_of "Ann " " Sprint " 10 1000 1000) [client_of "Ann " " Sprint " 10 1000 1000] /\
  no_comma (name (client_of "Ann " " Sprint " 10 1000 1000)) /\
  no_comma (bank (client_of "Ann " " Sprint " 10 1000 1000)) /\
  no_line_break (name (client_of "Ann " " Sprint " 10 1000 1000)) /\
  no_line_break (bank (client_of "Ann " " Sprint " 10 1000 1000)) /\
  no_leading_space (name (client_of "Ann " " Sprint " 10 1000 1000)).
Proof.
  assert (Hread : read_from_file_into_list (single_file (lit "f.txt") padded_text) (lit "f.txt")
                  = ([], Ok [client_of "Ann " " Sprint " 10 1000 1000]))
    by (vm_compute; reflexivity).
  assert (Hin : In (client_of "Ann " " Sprint " 10 1000 1000)
                  [client_of "Ann " " Sprint " 10 1000 1000]) by (left; reflexivity).
  split; [exact Hread|]. split; [exact Hin|].
  apply (records_read_have_clean_texts _ _ _ _ _ Hread Hin).
Defined.

(** X5. [filter_by_bank] finds nothing for a bank name that holds a
    comma or a line break: whenever it returns, it returns the empty
    list. *)
Theorem filter_by_unreadable_bank (fs : filesystem) (filename b : str)
    (out : list str) (res : list Client) :
  In PyStr.comma b \/ In PyStr.LF b \/ In PyStr.CR b ->
  filter_by_bank fs filename b = (out, Ok res) ->
  res = [].
Proof.
  intros Hb. unfold filter_by_bank, io_bind.
  destruct (read_from_file_into_list fs filename) as [out' [clients|e]] eqn:Hread;
    simpl; [|discriminate].
  intros H. inversion H; subst.
  pose proof (records_read_clean fs filename out clients Hread) as Hclean.
  unfold filter_by_bank_clients. clear H Hread.
  induction Hclean as [|c clients Hc _ IH]; [reflexivity|]. simpl.
  destruct (PyStr.eqb (bank c) b) eqn:E; [|exact IH].
  apply str_eqb_eq in E. subst b.
  destruct Hc as (_ & Hcomma & _ & [Hlf Hcr] & _). unfold no_comma in Hcomma. tauto.
Qed.

Lemma filter_by_unreadable_bank_witness :
  (In PyStr.comma (lit "Wells,Fargo") \/ In PyStr.LF (lit "Wells,Fargo")
   \/ In PyStr.CR (lit "Wells,Fargo")) /\
  filter_by_bank scenario_fs (lit "clients_info.txt") (lit "Wells,Fargo") = ([], Ok []) /\
  @nil Client = [].
Proof.
  assert (Hb : In PyStr.comma (lit "Wells,Fargo") \/ In PyStr.LF (lit "Wells,Fargo")
               \/ In PyStr.CR (lit "Wells,Fargo")).
  { left. vm_compute. do 5 right. left. reflexivity. }
  assert (Hrun : filter_by_bank scenario_fs (lit "clients_info.txt") (lit "Wells,Fargo")
                 = ([], Ok [])) by (vm_compute; reflexivity).
  split; [exact Hb|]. split; [exact Hrun|].
  apply (filter_by_unreadable_bank scenario_fs (lit "clients_info.txt") (lit "Wells,Fargo")
           [] [] Hb Hrun).
Defined.

(** ** The sign of a rate *)

Lemma binary_round_aux_negative (m e : Z) (l : location) :
  PyFloat.is_positive (binary_round_aux PyFloat.prec PyFloat.emax true m e l) = false.
Proof.
  unfold binary_round_aux.
  destruct (shr_fexp PyFloat.prec PyFloat.emax m e l) as [mrs' e'].
  destruct (shr_fexp PyFloat.prec PyFloat.emax _ e' loc_Exact) as [mrs'' e''].
  destruct (shr_m mrs''); try reflexivity.
  destruct (e'' <=? PyFloat.emax - PyFloat.prec); reflexivity.
Qed.

(** A positive quotient comes from two numbers of the same sign. *)
Lemma truediv_positive (a b : Z) (r : PyFloat.float) :
  PyFloat.truediv a b = Ok r -> PyFloat.is_positive r = true -> 0 < a * b.
Proof.
  unfold PyFloat.truediv. destruct (b =? 0) eqn:Hb; [discriminate|].
  destruct a as [|pa|pa], b as [|pb|pb]; try discriminate Hb; try lia;
    try (simpl; intros H; inversion H; subst; discriminate);
    unfold PyFloat.of_int, SFdiv;
    destruct (SFdiv_core_binary PyFloat.prec PyFloat.emax _ 0 _ 0) as [[mz ez] lz];
    cbn [xorb];
    pose proof (binary_round_aux_negative mz ez lz) as Hneg;
    destruct (binary_round_aux PyFloat.prec PyFloat.emax true mz ez lz);
    intros H; inversion H; subst; congruence.
Qed.

Lemma rate_positive_gain (m : mode) (c : Client) (r : PyFloat.float) :
  rate_per_day m c = Ok r -> PyFloat.is_positive r = true ->
  0 < gain m c * account_age c.
Proof. destruct m; apply truediv_positive. Qed.

Lemma largest_some (m : mode) (clients : list Client) (c : Client) :
  largest_per_day_clients m clients = Ok (Some c) ->
  rates_defined m clients /\
  exists i r, extremal_choice (rate_per_day m) clients i c /\
              rate_per_day m c = Ok r /\ PyFloat.is_positive r = true.
Proof.
  rewrite largest_per_day_search. intros Hsome.
  pose proof (search_defined _ clients _ Hsome) as Hall.
  destruct (search_spec _ (rate_per_day_finite m) clients Hall) as (res & Hres & Hiff).
  split; [exact Hall|]. apply Hiff. congruence.
Qed.

Lemma largest_result (m : mode) (clients : list Client) :
  rates_defined m clients ->
  exists res,
    largest_per_day_clients m clients = Ok res /\
    (forall c, res = Some c <->
       exists i r, extremal_choice (rate_per_day m) clients i c /\
                   rate_per_day m c = Ok r /\ PyFloat.is_positive r = true) /\
    (res = None <-> forall c, In c clients -> rate_not_positive m c).
Proof.
  intros Hall. rewrite largest_per_day_search.
  destruct (search_spec _ (rate_per_day_finite m) clients Hall) as (res & Hres & Hsome).
  destruct (search_none _ (rate_per_day_finite m) clients Hall) as (res' & Hres' & Hnone).
  assert (res' = res) by congruence; subst res'.
  exists res. auto.
Qed.

(** X6. The client an extremal query returns has really won: the
    amount earned (for the largest loss: the amount lost) and the
    account age have the same sign and are not zero, so with a positive
    age the current amount is above (for the loss: below) the starting
    amount. *)
Theorem returned_client_has_gained (m : mode) (clients : list Client) (c : Client) :
  largest_per_day_clients m clients = Ok (Some c) ->
  In c clients /\ 0 < gain m c * account_age c /\
  (0 < account_age c -> 0 < gain m c).
Proof.
  intros Hsome. destruct (largest_some m clients c Hsome) as (_ & i & r & [Hi _] & Hr & Hpos).
  pose proof (rate_positive_gain m c r Hr Hpos) as Hgain.
  split; [exact (nth_error_In _ _ Hi)|]. split; [exact Hgain|]. nia.
Qed.

Lemma returned_client_has_gained_witness :
  largest_per_day_clients Loss [Ann; Mark; Josh; Jonah; Franz] = Ok (Some Franz) /\
  In Franz [Ann; Mark; Josh; Jonah; Franz] /\
  0 < gain Loss Franz * account_age Franz /\
  (0 < account_age Franz -> 0 < gain Loss Franz).
Proof.
  assert (H : largest_per_day_clients Loss [Ann; Mark; Josh; Jonah; Franz] = Ok (Some Franz))
    by (vm_compute; reflexivity).
  split; [exact H|].
  apply (returned_client_has_gained Loss [Ann; Mark; Josh; Jonah; Franz] Franz H).
Defined.

(** X7. When every account age is positive and nobody has won (no
    current amount above the starting amount, for the largest loss: none
    below), the query returns [None], unless a rate is too large for a
    float and [OverflowError] is raised. *)
Theorem nobody_gained_none (m : mode) (clients : list Client) :
  Forall (fun c => 0 < account_age c /\ gain m c <= 0) clients ->
  largest_per_day_clients m clients = Ok None \/
  largest_per_day_clients m clients = Raise OverflowError.
Proof.
  intros Hall. rewrite Forall_forall in Hall.
  assert (Hout : value_or_overflow (largest_per_day_clients m clients)).
  { rewrite largest_per_day_search. apply search_outcome.
    intros c Hc. destruct (Hall c Hc) as [Hage _].
    destruct m; apply truediv_outcome; lia. }
  destruct Hout as [[res Hres]|Hover]; [|right; exact Hover].
  left. rewrite Hres. f_equal. destruct res as [c|]; [|reflexivity].
  destruct (largest_some m clients c Hres) as (_ & i & r & [Hi _] & Hr & Hpos).
  pose proof (rate_positive_gain m c r Hr Hpos) as Hgain.
  destruct (Hall c (nth_error_In _ _ Hi)) as [Hage Hno]. nia.
Qed.

Lemma nobody_gained_none_witness :
  Forall (fun c => 0 < account_age c /\ gain Earn c <= 0) [Ann; Jonah; Franz] /\
  (largest_per_day_clients Earn [Ann; Jonah; Franz] = Ok None \/
   largest_per_day_clients Earn [Ann; Jonah; Franz] = Raise OverflowError).
Proof.
  assert (H : Forall (fun c => 0 < account_age c /\ gain Earn c <= 0) [Ann; Jonah; Franz]).
  { repeat constructor; simpl; lia. }
  split; [exact H|apply (nobody_gained_none Earn [Ann; Jonah; Franz] H)].
Defined.

(** ** The order of the records *)

Lemma equally_preferred (m : mode) (i j i' j' : nat) (c c' : Client)
    (r r' : PyFloat.float) :
  rate_per_day m c = Ok r -> rate_per_day m c' = Ok r' ->
  preferred (rate_per_day m) i c j c' -> preferred (rate_per_day m) i' c' j' c ->
  PyFloat.eq r r' = true /\ account_age c' = account_age c.
Proof.
  intros Hr Hr' P1 P2.
  apply (preferred_key _ (rate_per_day_finite m) i j c c' r r' Hr Hr') in P1.
  apply (preferred_key _ (rate_per_day_finite m) i' j' c' c r' r Hr' Hr) in P2.
  pose proof (finite_not_nan _ (rate_per_day_finite m c r Hr)) as Nr.
  pose proof (finite_not_nan _ (rate_per_day_finite m c' r' Hr')) as Nr'.
  rewrite (float_eq_key r r' Nr Nr').
  destruct P1 as [L1|[E1 A1]], P2 as [L2|[E2 A2]].
  - exfalso; eapply key_lt_irrefl, key_lt_trans; eauto.
  - rewrite E2 in L1; exfalso; eapply key_lt_irrefl; eauto.
  - rewrite E1 in L2; exfalso; eapply key_lt_irrefl; eauto.
  - split; [exact E2|lia].
Qed.

(** X8. The order of the records matters for exact ties only.  When
    the records are put in another order, a query that returned [None]
    still returns [None], and a query that returned a record returns a
    record with an equal rate and the same account age. *)
Theorem search_order_independent (m : mode) (clients clients' : list Client) :
  Permutation clients clients' ->
  (largest_per_day_clients m clients = Ok None ->
   largest_per_day_clients m clients' = Ok None) /\
  (forall c, largest_per_day_clients m clients = Ok (Some c) ->
     exists c' r r',
       largest_per_day_clients m clients' = Ok (Some c') /\
       rate_per_day m c = Ok r /\ rate_per_day m c' = Ok r' /\
       PyFloat.eq r r' = true /\ account_age c' = account_age c).
Proof.
  intros Hperm. split.
  - intros Hnone.
    assert (Hall : rates_defined m clients)
      by (rewrite largest_per_day_search in Hnone; exact (search_defined _ _ _ Hnone)).
    destruct (largest_result m clients Hall) as (res & Hres & _ & Hiff).
    assert (res = None) by congruence; subst res.
    assert (Hall' : rates_defined m clients') by (exact (Permutation_Forall Hperm Hall)).
    destruct (largest_result m clients' Hall') as (res' & Hres' & _ & Hiff').
    rewrite Hres'. f_equal. apply Hiff'. intros c Hc.
    apply (proj1 Hiff eq_refl). apply (Permutation_in c (Permutation_sym Hperm) Hc).
  - intros c Hsome.
    destruct (largest_some m clients c Hsome) as (Hall & i & r & [Hi Hpref] & Hr & Hpos).
    assert (Hall' : rates_defined m clients') by (exact (Permutation_Forall Hperm Hall)).
    destruct (largest_result m clients' Hall') as (res' & Hres' & Hsome' & Hnone').
    assert (Hc' : In c clients') by (apply (Permutation_in c Hperm), (nth_error_In _ _ Hi)).
    destruct res' as [c'|].
    + destruct (proj1 (Hsome' c') eq_refl) as (i' & r' & [Hi' Hpref'] & Hr' & Hpos').
      exists c', r, r'. split; [exact Hres'|]. split; [exact Hr|]. split; [exact Hr'|].
      assert (Hcin : In c' clients)
        by (apply (Permutation_in c' (Permutation_sym Hperm)), (nth_error_In _ _ Hi')).
      apply In_nth_error in Hcin. destruct Hcin as [j Hj].
      apply In_nth_error in Hc'. destruct Hc' as [j' Hj'].
      exact (equally_preferred m i j i' j' c c' r r' Hr Hr' (Hpref j c' Hj) (Hpref' j' c Hj')).
    + destruct (proj1 Hnone' eq_refl c Hc') as (r0 & Hr0 & Hneg). congruence.
Qed.

Lemma search_order_independent_witness :
  Permutation tie_clients (rev tie_clients) /\
  (largest_per_day_clients Earn tie_clients = Ok None ->
   largest_per_day_clients Earn (rev tie_clients) = Ok None) /\
  (forall c, largest_per_day_clients Earn tie_clients = Ok (Some c) ->
     exists c' r r',
       largest_per_day_clients Earn (rev tie_clients) = Ok (Some c') /\
       rate_per_day Earn c = Ok r /\ rate_per_day Earn c' = Ok r' /\
       PyFloat.eq r r' = true /\ account_age c' = account_age c).
Proof.
  assert (H : Permutation tie_clients (rev tie_clients)) by (apply Permutation_rev).
  split; [exact H|apply (search_order_independent Earn tie_clients (rev tie_clients) H)].
Defined.

(** ** A record whose rate cannot be computed *)

Lemma search_loop_total (rate : Client -> result PyFloat.float)
    (clients : list Client) (st : search_state) :
  Forall (fun c => exists r, rate c = Ok r) clients ->
  exists st', for_loop (search_step rate) clients st = Ok st'.
Proof.
  intros Hall. revert st. induction Hall as [|x clients [r Hr] _ IH]; intros st; simpl.
  - eauto.
  - unfold search_step at 1. rewrite Hr. simpl. destruct (_ || _); apply IH.
Qed.

Lemma rate_zero_division (m : mode) (c : Client) :
  rate_per_day m c = Raise ZeroDivisionError <-> account_age c = 0.
Proof.
  destruct m; unfold rate_per_day, earnings_per_day, loss_per_day, PyFloat.truediv;
    destruct (Z.eqb_spec (account_age c) 0) as [E|E]; split; intros H;
    try reflexivity; try assumption; try contradiction;
    destruct (SFdiv _ _ _ _); discriminate.
Qed.

Lemma largest_first_raise (m : mode) (before after : list Client) (x : Client) (e : exn) :
  rates_defined m before ->
  rate_per_day m x = Raise e ->
  largest_per_day_clients m (before ++ x :: after) = Raise e.
Proof.
  intros Hbefore Hx.
  rewrite largest_per_day_search. unfold search. rewrite for_loop_app.
  destruct (search_loop_total (rate_per_day m) before search_init Hbefore) as [st Hst].
  rewrite Hst. simpl. unfold search_step at 1. rewrite Hx. reflexivity.
Qed.

(** X9. The record that stops a query.  When the rates of the records
    before [x] are computed and the rate of [x] raises, both extremal
    queries raise that exception, whatever follows [x]; it is
    [ZeroDivisionError] exactly when the account age of [x] is zero. *)
Theorem first_undefined_rate_raises (m : mode) (before after : list Client)
    (x : Client) (e : exn) :
  rates_defined m before ->
  rate_per_day m x = Raise e ->
  largest_per_day_clients m (before ++ x :: after) = Raise e /\
  (e = ZeroDivisionError <-> account_age x = 0).
Proof.
  intros Hbefore Hx. split.
  - exact (largest_first_raise m before after x e Hbefore Hx).
  - rewrite <- (rate_zero_division m x), Hx. split; congruence.
Qed.

Lemma first_undefined_rate_raises_witness :
  rates_defined Earn [Ann; Mark] /\
  rate_per_day Earn (client_of "Nul" "Chase" 0 10 20) = Raise ZeroDivisionError /\
  largest_per_day_clients Earn ([Ann; Mark] ++ client_of "Nul" "Chase" 0 10 20 :: [Josh])
    = Raise ZeroDivisionError /\
  (ZeroDivisionError = ZeroDivisionError <-> account_age (client_of "Nul" "Chase" 0 10 20) = 0).
Proof.
  assert (H1 : rates_defined Earn [Ann; Mark]).
  { unfold rates_defined. repeat constructor; eexists; vm_compute; reflexivity. }
  assert (H2 : rate_per_day Earn (client_of "Nul" "Chase" 0 10 20) = Raise ZeroDivisionError)
    by reflexivity.
  split; [exact H1|]. split; [exact H2|].
  apply (first_undefined_rate_raises Earn [Ann; Mark] [Josh]
           (client_of "Nul" "Chase" 0 10 20) ZeroDivisionError H1 H2).
Defined.

(** ** The script *)

(** X10. Run without its file the script does not fail: each of the
    four calls prints the notice, and the four results printed are two
    empty lists and twice [None]. *)
Theorem main_without_file (fs : filesystem) :
  fs (lit "clients_info.txt") = Raise FileNotFoundError ->
  main fs
  = ([not_found_message (lit "clients_info.txt"); lit "[]";
      not_found_message (lit "clients_info.txt"); lit "[]";
      not_found_message (lit "clients_info.txt"); lit "None";
      not_found_message (lit "clients_info.txt"); lit "None"], Ok tt).
Proof.
  intros Hmissing.
  unfold main, io_seq, filter_by_bank, largest_earnings_per_day, largest_loss_per_day,
    io_bind, read_from_file_into_list.
  rewrite Hmissing. reflexivity.
Qed.

Lemma main_without_file_witness :
  single_file (lit "other.txt") [] (lit "clients_info.txt") = Raise FileNotFoundError /\
  main (single_file (lit "other.txt") [])
  = ([not_found_message (lit "clients_info.txt"); lit "[]";
      not_found_message (lit "clients_info.txt"); lit "[]";
      not_found_message (lit "clients_info.txt"); lit "None";
      not_found_message (lit "clients_info.txt"); lit "None"], Ok tt).
Proof.
  split; [reflexivity|].
  apply (main_without_file (single_file (lit "other.txt") [])). reflexivity.
Defined.

(** X11. Run on a file with a malformed line the script stops at its
    first call: it raises [ValueError] and has printed nothing. *)
Theorem main_on_malformed_file (fs : filesystem) (text : str) :
  fs (lit "clients_info.txt") = Ok text ->
  Exists malformed (PyStr.readlines text) ->
  main fs = ([], Raise ValueError).
Proof.
  intros Hfile Hbad. unfold main, io_seq.
  rewrite (read_existing fs _ text Hfile), (append_loop_malformed _ [] Hbad). reflexivity.
Qed.

Lemma main_on_malformed_file_witness :
  single_file (lit "clients_info.txt") blank_line_text (lit "clients_info.txt")
    = Ok blank_line_text /\
  Exists malformed (PyStr.readlines blank_line_text) /\
  main (single_file (lit "clients_info.txt") blank_line_text) = ([], Raise ValueError).
Proof.
  assert (Hfile : single_file (lit "clients_info.txt") blank_line_text (lit "clients_info.txt")
                  = Ok blank_line_text) by reflexivity.
  assert (Hbad : Exists malformed (PyStr.readlines blank_line_text)).
  { let l := eval vm_compute in (PyStr.readlines blank_line_text) in
    change (Exists malformed l).
    apply Exists_cons_tl, Exists_cons_hd. exact I. }
  split; [exact Hfile|]. split; [exact Hbad|].
  apply (main_on_malformed_file _ blank_line_text Hfile Hbad).
Defined.

Lemma join_no_line_break (names : list str) :
  Forall no_line_break names -> no_line_break (join (lit ", ") names).
Proof.
  induction 1 as [|n names Hn Hnames IH]; [split; intros []|].
  cbn [join]. destruct names as [|n' names]; [exact Hn|].
  apply no_line_break_app; [exact Hn|].
  apply no_line_break_app; [|exact IH].
  split; intros H; vm_compute in H; intuition discriminate.
Qed.

Lemma str_list_no_line_break (clients : list Client) :
  Forall clean_texts clients -> no_line_break (str_list clients).
Proof.
  intros Hall. unfold str_list.
  apply no_line_break_app; [split; intros H; vm_compute in H; intuition discriminate|].
  apply no_line_break_app; [|split; intros H; vm_compute in H; intuition discriminate].
  apply join_no_line_break. apply Forall_map.
  eapply Forall_impl; [|exact Hall]. intros c (_ & _ & Hn & _). exact Hn.
Qed.

Lemma str_optional_no_line_break (m : mode) (clients : list Client) (res : option Client) :
  Forall clean_texts clients ->
  largest_per_day_clients m clients = Ok res ->
  no_line_break (str_optional res).
Proof.
  intros Hall Hres. destruct res as [c|].
  - destruct (largest_some m clients c Hres) as (_ & i & r & [Hi _] & _).
    rewrite Forall_forall in Hall.
    destruct (Hall c (nth_error_In _ _ Hi)) as (_ & _ & Hn & _). exact Hn.
  - split; intros H; vm_compute in H; intuition discriminate.
Qed.

(** X12. Run on a file that is read without a notice and whose rates
    are all computed, the script does not fail and prints exactly four
    lines, none of which holds a line break: the list of all clients,
    the list of the clients of "Sprint", and the results of the two
    extremal queries. *)
Theorem main_prints_four_lines (fs : filesystem) (clients : list Client) :
  read_from_file_into_list fs (lit "clients_info.txt") = ([], Ok clients) ->
  rates_defined Earn clients -> rates_defined Loss clients ->
  exists earned lost,
    largest_earnings_per_day_clients clients = Ok earned /\
    largest_loss_per_day_clients clients = Ok lost /\
    main fs
    = ([str_list clients; str_list (filter_by_bank_clients clients (lit "Sprint"));
        str_optional earned; str_optional lost], Ok tt) /\
    Forall no_line_break
      [str_list clients; str_list (filter_by_bank_clients clients (lit "Sprint"));
       str_optional earned; str_optional lost].
Proof.
  intros Hread Hearn Hloss.
  destruct (largest_result Earn clients Hearn) as (earned & He & _).
  destruct (largest_result Loss clients Hloss) as (lost & Hl & _).
  pose proof (records_read_clean fs _ [] clients Hread) as Hclean.
  exists earned, lost. split; [exact He|]. split; [exact Hl|]. split.
  - unfold main, io_seq, filter_by_bank, largest_earnings_per_day, largest_loss_per_day,
      io_bind.
    rewrite Hread. cbn [fst snd bind print app].
    change (largest_earnings_per_day_clients clients)
      with (largest_per_day_clients Earn clients).
    change (largest_loss_per_day_clients clients)
      with (largest_per_day_clients Loss clients).
    rewrite He, Hl. reflexivity.
  - repeat apply Forall_cons; try apply Forall_nil.
    + apply str_list_no_line_break. exact Hclean.
    + apply str_list_no_line_break. unfold filter_by_bank_clients.
      apply Forall_forall. intros c Hc. apply filter_In in Hc.
      rewrite Forall_forall in Hclean. apply Hclean. tauto.
    + exact (str_optional_no_line_break Earn clients earned Hclean He).
    + exact (str_optional_no_line_break Loss clients lost Hclean Hl).
Qed.

Lemma main_prints_four_lines_witness :
  read_from_file_into_list scenario_fs (lit "clients_info.txt")
    = ([], Ok [Ann; Mark; Josh; Jonah; Franz]) /\
  rates_defined Earn [Ann; Mark; Josh; Jonah; Franz] /\
  rates_defined Loss [Ann; Mark; Josh; Jonah; Franz] /\
  exists earned lost,
    largest_earnings_per_day_clients [Ann; Mark; Josh; Jonah; Franz] = Ok earned /\
    largest_loss_per_day_clients [Ann; Mark; Josh; Jonah; Franz] = Ok lost /\
    main scenario_fs
    = ([str_list [Ann; Mark; Josh; Jonah; Franz];
        str_list (filter_by_bank_clients [Ann; Mark; Josh; Jonah; Franz] (lit "Sprint"));
        str_optional earned; str_optional lost], Ok tt) /\
    Forall no_line_break
      [str_list [Ann; Mark; Josh; Jonah; Franz];
       str_list (filter_by_bank_clients [Ann; Mark; Josh; Jonah; Franz] (lit "Sprint"));
       str_optional earned; str_optional lost].
Proof.
  assert (H1 : read_from_file_into_list scenario_fs (lit "clients_info.txt")
               = ([], Ok [Ann; Mark; Josh; Jonah; Franz])) by (vm_compute; reflexivity).
  assert (H2 : rates_defined Earn [Ann; Mark; Josh; Jonah; Franz]).
  { unfold rates_defined. repeat constructor; eexists; vm_compute; reflexivity. }
  assert (H3 : rates_defined Loss [Ann; Mark; Josh; Jonah; Franz]).
  { unfold rates_defined. repeat constructor; eexists; vm_compute; reflexivity. }
  split; [exact H1|]. split; [exact H2|]. split; [exact H3|].
  apply (main_prints_four_lines scenario_fs [Ann; Mark; Josh; Jonah; Franz] H1 H2 H3).
Defined.

(** X13. Run on a file that is read but holds a record with account
    age zero, the rates before it being computed, the script prints the
    two lists and then fails with [ZeroDivisionError]. *)
Theorem main_on_zero_age (fs : filesystem) (before after : list Client) (x : Client) :
  read_from_file_into_list fs (lit "clients_info.txt") = ([], Ok (before ++ x :: after)) ->
  rates_defined Earn before ->
  account_age x = 0 ->
  main fs
  = ([str_list (before ++ x :: after);
      str_list (filter_by_bank_clients (before ++ x :: after) (lit "Sprint"))],
     Raise ZeroDivisionError).
Proof.
  intros Hread Hbefore Hage.
  pose proof (largest_first_raise Earn before after x ZeroDivisionError Hbefore
                (proj2 (rate_zero_division Earn x) Hage)) as Hraise.
  unfold main, io_seq, filter_by_bank, largest_earnings_per_day, io_bind.
  rewrite Hread. cbn [fst snd bind print app].
  change (largest_earnings_per_day_clients (before ++ x :: after))
    with (largest_per_day_clients Earn (before ++ x :: after)).
  rewrite Hraise. reflexivity.
Qed.

Lemma main_on_zero_age_witness :
  read_from_file_into_list
    (single_file (lit "clients_info.txt")
       (text_of_lines ["Ann,Sprint,10,1000,1000"; "Nul,Chase,0,10,20"]%string))
    (lit "clients_info.txt")
    = ([], Ok ([Ann] ++ client_of "Nul" "Chase" 0 10 20 :: [])) /\
  rates_defined Earn [Ann] /\
  account_age (client_of "Nul" "Chase" 0 10 20) = 0 /\
  main (single_file (lit "clients_info.txt")
          (text_of_lines ["Ann,Sprint,10,1000,1000"; "Nul,Chase,0,10,20"]%string))
  = ([str_list ([Ann] ++ client_of "Nul" "Chase" 0 10 20 :: []);
      str_list (filter_by_bank_clients ([Ann] ++ client_of "Nul" "Chase" 0 10 20 :: [])
                  (lit "Sprint"))],
     Raise ZeroDivisionError).
Proof.
  assert (H1 : read_from_file_into_list
                 (single_file (lit "clients_info.txt")
                    (text_of_lines ["Ann,Sprint,10,1000,1000"; "Nul,Chase,0,10,20"]%string))
                 (lit "clients_info.txt")
               = ([], Ok ([Ann] ++ client_of "Nul" "Chase" 0 10 20 :: [])))
    by (vm_compute; reflexivity).
  assert (H2 : rates_defined Earn [Ann]).
  { unfold rates_defined. repeat constructor; eexists; vm_compute; reflexivity. }
  assert (H3 : account_age (client_of "Nul" "Chase" 0 10 20) = 0) by reflexivity.
  split; [exact H1|]. split; [exact H2|]. split; [exact H3|].
  apply (main_on_zero_age _ [Ann] [] (client_of "Nul" "Chase" 0 10 20) H1 H2 H3).
Defined.

(** ** Commas in a line *)

Lemma split_length (sep : ascii) (s : str) :
  List.length (PyStr.split sep s) = S (count_occ ascii_dec s sep).
Proof.
  induction s as [|c s IH]; [reflexivity|]. simpl.
  destruct (Ascii.eqb c sep) eqn:Hc.
  - apply Ascii.eqb_eq in Hc. destruct (ascii_dec c sep); [|contradiction].
    simpl. rewrite IH. reflexivity.
  - destruct (ascii_dec c sep) as [E|_];
      [subst c; rewrite Ascii.eqb_refl in Hc; discriminate|].
    destruct (PyStr.split sep s); [discriminate IH|exact IH].
Qed.

(** X14. A line is parsed only if, once stripped, it holds exactly
    four commas: with any other number of commas, for instance with a
    comma inside a name, the line raises [ValueError]. *)
Theorem line_needs_four_commas (line : str) :
  comma_count (PyStr.strip line) <> 4%nat ->
  parse_line line = Raise ValueError.
Proof.
  intros Hcount. unfold parse_line, comma_count in *.
  pose proof (split_length PyStr.comma (PyStr.strip line)) as Hlen.
  destruct (PyStr.split PyStr.comma (PyStr.strip line))
    as [|f1 [|f2 [|f3 [|f4 [|f5 [|f6 l]]]]]]; try reflexivity.
  simpl in Hlen. exfalso. apply Hcount. lia.
Qed.

Lemma line_needs_four_commas_witness :
  comma_count (PyStr.strip (lit "Franz,Wells,Fargo,4,1000,200")) <> 4%nat /\
  parse_line (lit "Franz,Wells,Fargo,4,1000,200") = Raise ValueError.
Proof.
  assert (H : comma_count (PyStr.strip (lit "Franz,Wells,Fargo,4,1000,200")) <> 4%nat)
    by (vm_compute; discriminate).
  split; [exact H|apply (line_needs_four_commas _ H)].
Defined.

(** ** The size of the numbers read *)

Lemma digit_value_range (c : ascii) (d : Z) :
  PyStr.digit_value c = Some d -> 0 <= d <= 9.
Proof.
  unfold PyStr.digit_value, PyStr.in_range.
  destruct (_ && _) eqn:H; [|discriminate].
  apply andb_true_iff in H. destruct H as [H1 H2].
  apply N.leb_le in H1, H2. intros E. inversion E. lia.
Qed.

Lemma scan_digits_bound (s : str) (p : bool) (v n v' n' : Z) :
  PyStr.scan_digits s p v n = Some (v', n') ->
  0 <= n -> 0 <= v < 10 ^ n ->
  0 <= v' < 10 ^ n' /\ n <= n'.
Proof.
  revert p v n; induction s as [|c s IH]; intros p v n; simpl.
  - destruct p; [discriminate|]. intros H. inversion H; subst. intros; lia.
  - destruct (Ascii.eqb c PyStr.underscore).
    + destruct p; [discriminate|]. apply IH.
    + destruct (PyStr.digit_value c) as [d|] eqn:Hd; [|discriminate].
      apply digit_value_range in Hd. intros H Hn Hv.
      assert (Hpow : 10 ^ (n + 1) = 10 * 10 ^ n)
        by (rewrite Z.pow_add_r by lia; lia).
      destruct (IH false (10 * v + d) (n + 1) H) as [Hv' Hn']; [lia|lia|].
      split; [exact Hv'|lia].
Qed.

Lemma int_bound (s : str) (z : Z) :
  PyStr.int_ s = Ok z -> Z.abs z < 10 ^ PyStr.max_str_digits.
Proof.
  unfold PyStr.int_.
  destruct (match PyStr.strip_with PyStr.int_space s with
            | [] => _ | c :: rest => _ end) as [negative body].
  destruct (PyStr.int_digits body) as [[value digits]|] eqn:Hd; [|discriminate].
  destruct (PyStr.max_str_digits <? digits) eqn:Hmax; [discriminate|].
  apply Z.ltb_ge in Hmax. intros H. inversion H; subst.
  unfold PyStr.int_digits in Hd. destruct body as [|c body]; [discriminate|].
  destruct (Ascii.eqb c PyStr.underscore); [discriminate|].
  apply scan_digits_bound in Hd; [|lia|simpl; lia].
  destruct Hd as [Hv _].
  assert (Hpow : 10 ^ digits <= 10 ^ PyStr.max_str_digits)
    by (apply Z.pow_le_mono_r; lia).
  destruct negative; lia.
Qed.

(** X15. Every number read from a file is smaller in magnitude than
    ten to the power [max_str_digits]: [int] refuses longer literals. *)
Theorem numbers_read_are_bounded (fs : filesystem) (filename : str)
    (out : list str) (clients : list Client) (c : Client) :
  read_from_file_into_list fs filename = (out, Ok clients) ->
  In c clients ->
  Z.abs (account_age c) < 10 ^ PyStr.max_str_digits /\
  Z.abs (starting_amount c) < 10 ^ PyStr.max_str_digits /\
  Z.abs (current_amount c) < 10 ^ PyStr.max_str_digits.
Proof.
  unfold read_from_file_into_list.
  destruct (fs filename) as [text|e].
  - intros H Hc. inversion H as [[Hout Hloop]].
    apply append_loop_parses in Hloop. destruct Hloop as (cs & E & Hcs).
    simpl in E. subst cs.
    destruct (Forall2_right_In _ _ _ c Hcs Hc) as (line & _ & Hparse).
    unfold parse_line in Hparse.
    destruct (PyStr.split PyStr.comma (PyStr.strip line))
      as [|f1 [|f2 [|f3 [|f4 [|f5 [|f6 l]]]]]]; try discriminate.
    destruct (PyStr.int_ f3) as [a|e3] eqn:E3; [|discriminate].
    destruct (PyStr.int_ f4) as [s|e4] eqn:E4; [|discriminate].
    destruct (PyStr.int_ f5) as [k|e5] eqn:E5; [|discriminate].
    simpl in Hparse. inversion Hparse; subst.
    cbn [account_age starting_amount current_amount].
    repeat split; eapply int_bound; eassumption.
  - destruct e; intros H Hc; inversion H; subst; destruct Hc.
Qed.

Lemma numbers_read_are_bounded_witness :
  read_from_file_into_list scenario_fs (lit "clients_info.txt")
    = ([], Ok [Ann; Mark; Josh; Jonah; Franz]) /\
  In Josh [Ann; Mark; Josh; Jonah; Franz] /\
  Z.abs (account_age Josh) < 10 ^ PyStr.max_str_digits /\
  Z.abs (starting_amount Josh) < 10 ^ PyStr.max_str_digits /\
  Z.abs (current_amount Josh) < 10 ^ PyStr.max_str_digits.
Proof.
  assert (H1 : read_from_file_into_list scenario_fs (lit "clients_info.txt")
               = ([], Ok [Ann; Mark; Josh; Jonah; Franz])) by (vm_compute; reflexivity).
  assert (H2 : In Josh [Ann; Mark; Josh; Jonah; Franz]) by (right; right; left; reflexivity).
  split; [exact H1|]. split; [exact H2|].
  apply (numbers_read_are_bounded scenario_fs (lit "clients_info.txt") []
           [Ann; Mark; Josh; Jonah; Franz] Josh H1 H2).
Defined.

(** ** The queries look at the numbers only *)

Lemma rate_same_numbers (m : mode) (c c' : Client) :
  same_numbers c c' -> rate_per_day m c' = rate_per_day m c.
Proof.
  intros (Ha & Hs & Hc).
  destruct m; unfold rate_per_day, earnings_per_day, loss_per_day;
    rewrite Ha, Hs, Hc; reflexivity.
Qed.

Lemma search_loop_map (m : mode) (f : Client -> Client) (clients : list Client)
    (st : search_state) :
  (forall c, same_numbers c (f c)) ->
  for_loop (search_step (rate_per_day m)) (map f clients) (map_best f st)
  = (st' <- for_loop (search_step (rate_per_day m)) clients st ;; Ok (map_best f st')).
Proof.
  intros Hf. revert st; induction clients as [|x clients IH]; intros st; simpl;
    [reflexivity|].
  unfold search_step at 1 3. rewrite (rate_same_numbers m x (f x) (Hf x)).
  destruct (rate_per_day m x) as [r|e]; simpl; [|reflexivity].
  destruct (Hf x) as (Ha & _). rewrite Ha.
  destruct (_ || _); [|apply IH].
  apply (IH {| max_rate := r; earliest_time := Days (account_age x); best := Some x |}).
Qed.

(** X16. The extremal queries look at the three numbers and at the
    order of the records only.  When each record is replaced by a record
    with the same account age and amounts (another name, another bank),
    both queries return the replacement of the record they returned
    before, and raise when they raised before. *)
Theorem queries_ignore_texts (m : mode) (f : Client -> Client) (clients : list Client) :
  (forall c, same_numbers c (f c)) ->
  largest_per_day_clients m (map f clients)
  = (res <- largest_per_day_clients m clients ;; Ok (option_map f res)).
Proof.
  intros Hf. rewrite !largest_per_day_search. unfold search.
  change (for_loop (search_step (rate_per_day m)) (map f clients) search_init)
    with (for_loop (search_step (rate_per_day m)) (map f clients)
            (map_best f search_init)).
  rewrite (search_loop_map m f clients search_init Hf).
  destruct (for_loop (search_step (rate_per_day m)) clients search_init) as [st|e]; simpl;
    [|reflexivity].
  destruct (PyFloat.is_positive (max_rate st)); reflexivity.
Qed.

Lemma queries_ignore_texts_witness :
  (forall c, same_numbers c (anonymous c)) /\
  largest_per_day_clients Earn (map anonymous tie_clients)
  = (res <- largest_per_day_clients Earn tie_clients ;; Ok (option_map anonymous res)).
Proof.
  assert (H : forall c, same_numbers c (anonymous c)) by (intros c; repeat split).
  split; [exact H|apply (queries_ignore_texts Earn anonymous tie_clients H)].
Defined.
